(** * NEON daily sensor summaries (neon_sensors_pep2026.py)

    A shallow embedding of the three procedures of the script
    ([write_citation], [neon_dwnld_sum_daily], [main]) together with the
    pandas operations they rely on, and the properties of the time-window
    subsetting, the daily aggregation and the failure boundaries.

    Conventions of the embedding:
    - Python floats that hold minutes are exact rationals ([Q]); every
      constant the source compares against (7.5, 720, 1440) and the half
      minutes at the boundary are exactly representable in binary floating
      point. [is_within_window_float] is the same test in binary64, and the
      two agree at every clock time for the targets of the site table.
    - The mean of a group is defined for any averaging of a list of numbers
      ([mean_with], [daily_averages_with]), pandas averaging in binary64;
      [mean] and [daily_averages] are the instances with the exact average.
    - A pandas table is a list of column labels with their dtype and a list
      of rows; a row maps column labels to cells, a missing label reading as
      the missing value.
    - The download service, the file system, the console and the textual
      renderings the script delegates to libraries ([repr], [to_csv],
      [str] of an exception) are the fields of an environment record.
    - Exceptions are the instances of Python's [Exception]; the statements
      [try: ... except Exception] of the source catch all of them. *)

From Stdlib Require Import ZArith QArith Qabs Lia Lra String Ascii List Bool.
From Stdlib Require Import Sorted.
From Corelib Require Import PrimFloat.
From stdpp Require Import gmap strings list fin_maps.
Import ListNotations.

Local Open Scope Z_scope.

(** ** Exceptions and results *)

(** The exceptions the script can meet, by origin. *)
Inductive exn : Type :=
  | ValueError_int (literal : string)
      (* int() applied to text that is not an integer literal *)
  | ValueError_too_few (got : nat)
      (* a, b = ... with fewer than two values *)
  | ValueError_too_many
      (* a, b = ... with more than two values *)
  | ValueError_format (text : string)
      (* pd.to_datetime(..., format=...) on text that does not match *)
  | ValueError_datetime
      (* pd.to_datetime on a value it cannot convert *)
  | ValueError_no_objects
      (* .agg with an empty mapping *)
  | KeyError (key : string)
  | TypeError_subscript (key : string)
      (* subscripting a bundle entry that is not a table *)
  | OSError (path : string)
  | ServiceError (message : string).
      (* raised inside nu.load_by_product *)

Inductive Result (A : Type) : Type :=
  | Return (a : A)
  | Raise (e : exn).
Arguments Return {A} a.
Arguments Raise {A} e.

Definition rbind {A B} (r : Result A) (k : A -> Result B) : Result B :=
  match r with
  | Return a => k a
  | Raise e => Raise e
  end.

Fixpoint rmap {A B} (f : A -> Result B) (l : list A) : Result (list B) :=
  match l with
  | [] => Return []
  | x :: l' =>
      rbind (f x) (fun y => rbind (rmap f l') (fun ys => Return (y :: ys)))
  end.

(** ** Text *)

Module Text.

Definition newline : string := String (ascii_of_nat 10) EmptyString.

(** [str.lower] on the ASCII range; letters outside it are left as they
    are. *)
Definition lower_ascii (a : ascii) : ascii :=
  let n := nat_of_ascii a in
  if ((65 <=? n)%nat && (n <=? 90)%nat)%bool then ascii_of_nat (n + 32) else a.

Fixpoint lower (s : string) : string :=
  match s with
  | EmptyString => EmptyString
  | String a s' => String (lower_ascii a) (lower s')
  end.

(** [needle in hay] for Python strings. *)
Fixpoint contains (needle hay : string) : bool :=
  if String.prefix needle hay then true
  else match hay with
       | EmptyString => false
       | String _ hay' => contains needle hay'
       end.

(** [s.split(sep)] for a one-character separator: the pieces between the
    separators, always at least one. *)
Fixpoint split (sep : ascii) (s : string) : list string :=
  match s with
  | EmptyString => [EmptyString]
  | String a s' =>
      if Ascii.eqb a sep then EmptyString :: split sep s'
      else match split sep s' with
           | p :: ps => String a p :: ps
           | [] => [String a EmptyString]
           end
  end.

Definition is_space (a : ascii) : bool :=
  let n := nat_of_ascii a in
  ((n =? 32)%nat || ((9 <=? n)%nat && (n <=? 13)%nat)
   || ((28 <=? n)%nat && (n <=? 31)%nat))%bool.

Definition is_digit (a : ascii) : bool :=
  let n := nat_of_ascii a in ((48 <=? n)%nat && (n <=? 57)%nat)%bool.

Definition digit_value (a : ascii) : Z := Z.of_nat (nat_of_ascii a) - 48.

Fixpoint lstrip (s : string) : string :=
  match s with
  | String a s' => if is_space a then lstrip s' else s
  | EmptyString => EmptyString
  end.

Fixpoint rev_string (s acc : string) : string :=
  match s with
  | EmptyString => acc
  | String a s' => rev_string s' (String a acc)
  end.

Definition rstrip (s : string) : string :=
  rev_string (lstrip (rev_string s EmptyString)) EmptyString.

Definition strip (s : string) : string := rstrip (lstrip s).

(** Decimal digits with single underscores allowed between digits, as
    [int] reads them; [after_digit] tells that the previous character
    was a digit. *)
Fixpoint digits (s : string) (acc : Z) (after_digit : bool) : option Z :=
  match s with
  | EmptyString => if after_digit then Some acc else None
  | String a s' =>
      if is_digit a then digits s' (acc * 10 + digit_value a) true
      else if (Ascii.eqb a "_" && after_digit)%bool then digits s' acc false
      else None
  end.

(** The number of digit characters of a text. *)
Fixpoint digit_count (s : string) : Z :=
  match s with
  | EmptyString => 0
  | String a s' => (if is_digit a then 1 else 0) + digit_count s'
  end.

(** [sys.get_int_max_str_digits()], as the interpreter starts. *)
Definition max_str_digits : Z := 4300.

(** [int(s)] in base ten: surrounding white space, an optional sign,
    digits; a text of more digits than the limit is refused. *)
Definition py_int (s : string) : Result Z :=
  let body := strip s in
  let parsed :=
    match body with
    | String "-" rest => option_map Z.opp (digits rest 0 false)
    | String "+" rest => digits rest 0 false
    | _ => digits body 0 false
    end in
  match parsed with
  | Some z => if max_str_digits <? digit_count body
              then Raise (ValueError_int s) else Return z
  | None => Raise (ValueError_int s)
  end.

(** One or two decimal digits, the shape a [strptime] field takes. *)
Definition field2 (s : string) : option Z :=
  match s with
  | String a EmptyString =>
      if is_digit a then Some (digit_value a) else None
  | String a (String b EmptyString) =>
      if (is_digit a && is_digit b)%bool
      then Some (digit_value a * 10 + digit_value b) else None
  | _ => None
  end.

End Text.

(** ** Clock times *)

Module Clock.

(** A pandas [Timestamp] at the resolution the script reads. *)
Record Timestamp : Type := mkTimestamp {
  year : Z; month : Z; day : Z;
  hour : Z; minute : Z; second : Z
}.

#[export] Instance Timestamp_eq_dec : EqDecision Timestamp.
Proof. solve_decision. Defined.

Definition compare (a b : Timestamp) : comparison :=
  match year a ?= year b with
  | Eq => match month a ?= month b with
          | Eq => match day a ?= day b with
                  | Eq => match hour a ?= hour b with
                          | Eq => match minute a ?= minute b with
                                  | Eq => second a ?= second b
                                  | c => c
                                  end
                          | c => c
                          end
                  | c => c
                  end
          | c => c
          end
  | c => c
  end.

Definition Qgt_bool (a b : Q) : bool := negb (Qle_bool a b).

(** [is_within_window], lines 97-107, with exact minutes; the comparison
    in binary64 is [is_within_window_float] below. A target too large for a
    binary64 number, which the interpreter refuses with OverflowError, is
    outside this model. *)
Definition is_within_window (dt : Timestamp) (target_h target_m : Z) : bool :=
  let dt_minutes :=
    (inject_Z (hour dt * 60 + minute dt) + inject_Z (second dt) / 60)%Q in
  let target_minutes := inject_Z (target_h * 60 + target_m) in
  let diff := Qabs (dt_minutes - target_minutes) in
  let diff := if Qgt_bool diff (inject_Z (12 * 60))
              then (inject_Z (24 * 60) - diff)%Q else diff in
  Qle_bool diff (75 # 10).

(** The same lines evaluated in binary64, as the interpreter does: the
    integers are converted exactly, the division, the sums and the
    differences are rounded. *)
Fixpoint float_of_positive (p : positive) : float :=
  match p with
  | xH => 1%float
  | xO p' => PrimFloat.mul 2 (float_of_positive p')
  | xI p' => PrimFloat.add (PrimFloat.mul 2 (float_of_positive p')) 1
  end.

Definition float_of_Z (z : Z) : float :=
  match z with
  | Z0 => 0%float
  | Zpos p => float_of_positive p
  | Zneg p => PrimFloat.opp (float_of_positive p)
  end.

Definition is_within_window_float (dt : Timestamp) (target_h target_m : Z) : bool :=
  let dt_minutes :=
    PrimFloat.add (float_of_Z (hour dt * 60 + minute dt))
                  (PrimFloat.div (float_of_Z (second dt)) 60) in
  let target_minutes := float_of_Z (target_h * 60 + target_m) in
  let diff := PrimFloat.abs (PrimFloat.sub dt_minutes target_minutes) in
  let diff := if PrimFloat.ltb (float_of_Z (12 * 60)) diff
              then PrimFloat.sub (float_of_Z (24 * 60)) diff else diff in
  PrimFloat.leb diff 7.5.

(** The two tests give the same answer at every second of a day. *)
Definition upto (n : nat) : list Z := map Z.of_nat (seq 0 n).

Definition float_agrees_all_day (target_h target_m : Z) : bool :=
  forallb (fun h =>
    forallb (fun m =>
      forallb (fun s =>
        Bool.eqb (is_within_window_float (mkTimestamp 0 0 0 h m s) target_h target_m)
                 (is_within_window (mkTimestamp 0 0 0 h m s) target_h target_m))
        (upto 60)) (upto 60)) (upto 24).

(** [target_hour, target_minute = map(int, timeutc.split(':'))], line 58. *)
Definition parse_timeutc (timeutc : string) : Result (Z * Z) :=
  match Text.split ":" timeutc with
  | [h; m] =>
      rbind (Text.py_int h) (fun target_hour =>
      rbind (Text.py_int m) (fun target_minute =>
      Return (target_hour, target_minute)))
  | h :: m :: x :: _ =>
      (* the unpacking asks the iterator for a third value *)
      rbind (Text.py_int h) (fun _ =>
      rbind (Text.py_int m) (fun _ =>
      rbind (Text.py_int x) (fun _ =>
      Raise ValueError_too_many)))
  | [h] => rbind (Text.py_int h) (fun _ => Raise (ValueError_too_few 1))
  | [] => Raise (ValueError_too_few 0)
  end.

(** The clock part of the format ['%Y-%m-%d %H:%M']: the blank of the
    format takes the white space that [text] starts with; then an hour
    field of one or two digits up to 23, a colon, a minute field of one or
    two digits up to 59, and nothing else. *)
Definition strptime_HM (text : string) : option (Z * Z) :=
  match Text.split ":" (Text.lstrip text) with
  | [h; m] =>
      match Text.field2 h, Text.field2 m with
      | Some H, Some M =>
          if ((H <=? 23) && (M <=? 59))%bool then Some (H, M) else None
      | _, _ => None
      end
  | _ => None
  end.

(** [pd.to_datetime(day.strftime('%Y-%m-%d') + ' ' + timeutc,
    format='%Y-%m-%d %H:%M')], lines 117-120, for one timestamp: the day
    is printed and read back, the clock comes from [timeutc]. *)
Definition at_requested_time (dt : Timestamp) (timeutc : string)
  : Result Timestamp :=
  match strptime_HM timeutc with
  | Some (H, M) =>
      Return {| year := year dt; month := month dt; day := day dt;
                hour := H; minute := M; second := 0 |}
  | None => Raise (ValueError_format timeutc)
  end.

End Clock.

(** ** Tables *)

Module Table.
Import Clock.

Inductive dtype : Type := Number | Datetime | Object.

(** A cell; [NA] stands for NaN, None and NaT alike. *)
Inductive cell : Type :=
  | Num (q : Q)
  | Str (s : string)
  | Time (t : Timestamp)
  | NA.

Record Frame : Type := mkFrame {
  columns : list (string * dtype);
  rows : list (gmap string cell)
}.

Definition cell_at (c : string) (r : gmap string cell) : cell :=
  default NA (r !! c).

Definition labels (f : Frame) : list string := map fst (columns f).

Definition mem (c : string) (cs : list string) : bool :=
  existsb (String.eqb c) cs.

Definition has_column (c : string) (f : Frame) : bool := mem c (labels f).

Definition dtype_of (c : string) (f : Frame) : dtype :=
  match List.find (fun cd => String.eqb c (fst cd)) (columns f) with
  | Some cd => snd cd
  | None => Object
  end.

(** [f[c] = values]: an existing column keeps its place, a new one goes
    last. *)
Definition set_dtype (c : string) (d : dtype) (cols : list (string * dtype))
  : list (string * dtype) :=
  if mem c (map fst cols)
  then map (fun cd => if String.eqb c (fst cd) then (c, d) else cd) cols
  else cols ++ [(c, d)].

Definition assign (c : string) (d : dtype)
    (value : gmap string cell -> Result cell) (f : Frame) : Result Frame :=
  rbind (rmap (fun r => rbind (value r) (fun v => Return (<[c := v]> r)))
              (rows f))
        (fun rs => Return {| columns := set_dtype c d (columns f); rows := rs |}).

(** [f[mask]]: the rows the mask keeps, in order, under the same columns. *)
Definition where_ (mask : gmap string cell -> bool) (f : Frame) : Frame :=
  {| columns := columns f; rows := List.filter mask (rows f) |}.

(** [pd.to_datetime] on one value: timestamps and missing values pass
    through, anything else is read by the library's parser [parse]. *)
Definition to_datetime_cell (parse : cell -> option Timestamp) (c : cell)
  : Result cell :=
  match c with
  | Time t => Return (Time t)
  | NA => Return NA
  | other =>
      match parse other with
      | Some t => Return (Time t)
      | None => Raise ValueError_datetime
      end
  end.

(** [f['endDateTime'] = pd.to_datetime(f['endDateTime'])], lines 94, 171. *)
Definition convert_endDateTime (parse : cell -> option Timestamp) (f : Frame)
  : Result Frame :=
  if has_column "endDateTime" f
  then assign "endDateTime" Datetime
         (fun r => to_datetime_cell parse (cell_at "endDateTime" r)) f
  else Raise (KeyError "endDateTime").

(** Line 87. *)
Definition s2locs : list string := ["102"; "110"; "112"; "132"]%string.

(** [Series.isin] with a list of strings. *)
Definition isin (values : list string) (c : cell) : bool :=
  match c with
  | Str s => mem s values
  | _ => false
  end.

(** Line 88. *)
Definition subset_s2 (f : Frame) : Result Frame :=
  if has_column "horizontalPosition" f
  then Return (where_ (fun r => isin s2locs (cell_at "horizontalPosition" r)) f)
  else Raise (KeyError "horizontalPosition").

(** The mask of lines 110-114; a missing time has no hour and fails every
    comparison. *)
Definition in_window (target_hour target_minute : Z) (r : gmap string cell)
  : bool :=
  match cell_at "endDateTime" r with
  | Time t => is_within_window t target_hour target_minute
  | _ => false
  end.

(** Lines 110-114. [Series.apply] on a column without rows gives an empty
    column that is not boolean, and a subscript by it selects columns, none
    of them: the result has then neither rows nor columns. *)
Definition filter_window (target_hour target_minute : Z) (f : Frame) : Frame :=
  match rows f with
  | [] => {| columns := []; rows := [] |}
  | _ :: _ => where_ (in_window target_hour target_minute) f
  end.

(** Lines 117-120. *)
Definition synthetic_date (timeutc : string) (r : gmap string cell)
  : Result cell :=
  match cell_at "endDateTime" r with
  | Time t => rbind (at_requested_time t timeutc) (fun d => Return (Time d))
  | _ => Return NA
  end.

Definition add_date (timeutc : string) (f : Frame) : Result Frame :=
  if has_column "endDateTime" f
  then assign "date" Datetime (synthetic_date timeutc) f
  else Raise (KeyError "endDateTime").

(** Lines 123-128. *)
Definition metadata_cols : list string :=
  ["domainID"; "siteID"; "horizontalPosition"; "release"]%string.

Definition existing_meta (f : Frame) : list string :=
  List.filter (fun c => has_column c f) metadata_cols.

Definition is_number (d : dtype) : bool :=
  match d with Number => true | _ => false end.

Definition numeric_cols (f : Frame) : list string :=
  List.filter (fun c => negb (mem c (existing_meta f)))
    (map fst (List.filter (fun cd => is_number (snd cd)) (columns f))).

(** The two reductions the script names. *)
Inductive how : Type := Mean | First.

Definition numeric_values (vals : list cell) : list Q :=
  flat_map (fun c => match c with Num q => [q] | _ => [] end) vals.

Definition Qsum (xs : list Q) : Q := fold_right Qplus 0%Q xs.

(** ['mean']: the average of the values present; missing when none is
    present. pandas averages in binary64 arithmetic, so the number it
    returns is the sum over the count only up to rounding: [average] stands
    for the averaging of a non-empty list of numbers, in their order. *)
Definition mean_with (average : list Q -> Q) (vals : list cell) : cell :=
  match numeric_values vals with
  | [] => NA
  | xs => Num (average xs)
  end.

(** The averaging without rounding: the sum over the count. *)
Definition exact_average (xs : list Q) : Q :=
  Qsum xs / inject_Z (Z.of_nat (length xs)).

Definition mean : list cell -> cell := mean_with exact_average.

(** ['first']: the first value that is not missing; missing when all
    are. *)
Fixpoint first (vals : list cell) : cell :=
  match vals with
  | [] => NA
  | NA :: vals' => first vals'
  | v :: _ => v
  end.

Definition reduce_with (average : list Q -> Q) (h : how) (vals : list cell)
  : cell :=
  match h with Mean => mean_with average vals | First => first vals end.

Definition reduce : how -> list cell -> cell := reduce_with exact_average.

(** Lines 131-132. *)
Definition agg_map (f : Frame) : list (string * how) :=
  map (fun c => (c, Mean)) (numeric_cols f)
  ++ map (fun c => (c, First)) (existing_meta f).

(** [groupby('date')]: the distinct keys in increasing order; rows with a
    missing key belong to no group. *)
Fixpoint insert_key (k : Timestamp) (ks : list Timestamp) : list Timestamp :=
  match ks with
  | [] => [k]
  | k' :: ks' =>
      match compare k k' with
      | Lt => k :: ks
      | Eq => ks
      | Gt => k' :: insert_key k ks'
      end
  end.

Definition group_keys (rs : list (gmap string cell)) : list Timestamp :=
  fold_right (fun r ks => match cell_at "date" r with
                          | Time k => insert_key k ks
                          | _ => ks
                          end) [] rs.

Definition has_key (k : Timestamp) (r : gmap string cell) : bool :=
  match cell_at "date" r with
  | Time t => bool_decide (t = k)
  | _ => false
  end.

Definition group (k : Timestamp) (rs : list (gmap string cell))
  : list (gmap string cell) :=
  List.filter (has_key k) rs.

Definition agg_row_with (average : list Q -> Q) (m : list (string * how))
    (k : Timestamp) (g : list (gmap string cell)) : gmap string cell :=
  <["date" := Time k]>
    (list_to_map
       (map (fun ch => (fst ch,
                        reduce_with average (snd ch) (map (cell_at (fst ch)) g)))
            m)).

Definition agg_row : list (string * how) -> Timestamp
                     -> list (gmap string cell) -> gmap string cell :=
  agg_row_with exact_average.

Definition agg_dtype (f : Frame) (ch : string * how) : string * dtype :=
  (fst ch, match snd ch with Mean => Number | First => dtype_of (fst ch) f end).

(** [f.groupby('date', as_index=False).agg(m)], line 133. *)
Definition groupby_date_agg_with (average : list Q -> Q)
    (m : list (string * how)) (f : Frame) : Result Frame :=
  if negb (has_column "date" f) then Raise (KeyError "date")
  else match m with
       | [] => Raise ValueError_no_objects
       | _ =>
           Return {| columns := ("date"%string, Datetime) :: map (agg_dtype f) m;
                     rows := map (fun k => agg_row_with average m k
                                             (group k (rows f)))
                                 (group_keys (rows f)) |}
       end.

Definition groupby_date_agg : list (string * how) -> Frame -> Result Frame :=
  groupby_date_agg_with exact_average.

(** [f[cols]] with a list of labels. *)
Definition select (cols : list string) (f : Frame) : Result Frame :=
  match List.find (fun c => negb (has_column c f)) cols with
  | Some c => Raise (KeyError c)
  | None =>
      Return {| columns := map (fun c => (c, dtype_of c f)) cols;
                rows := map (fun r => filter (fun kv => fst kv ∈ cols) r) (rows f) |}
  end.

(** Lines 123-134: from the dated readings to the daily table. *)
Definition daily_averages_with (average : list Q -> Q) (waq_filtered : Frame)
  : Result Frame :=
  let existing_meta := existing_meta waq_filtered in
  let numeric_cols := numeric_cols waq_filtered in
  rbind (groupby_date_agg_with average (agg_map waq_filtered) waq_filtered)
        (fun daily =>
  select (["date"%string] ++ existing_meta
          ++ List.filter (fun c => has_column c daily) numeric_cols) daily).

Definition daily_averages : Frame -> Result Frame :=
  daily_averages_with exact_average.

(** Lines 88-134: from the instantaneous table to the daily table. *)
Definition summarize_waq (parse : cell -> option Timestamp)
    (timeutc : string) (target_hour target_minute : Z)
    (waq_instantaneous : Frame) : Result Frame :=
  rbind (subset_s2 waq_instantaneous) (fun waq =>
  rbind (convert_endDateTime parse waq) (fun waq =>
  let waq_filtered := filter_window target_hour target_minute waq in
  rbind (add_date timeutc waq_filtered) (fun waq_filtered =>
  daily_averages waq_filtered))).

(** Lines 174-177: the mask of the discharge table. *)
Definition at_target (target_hour target_minute : Z) (r : gmap string cell)
  : bool :=
  match cell_at "endDateTime" r with
  | Time t => ((hour t =? target_hour) && (minute t =? target_minute))%bool
  | _ => false
  end.

(** Lines 171-177. *)
Definition subset_csd (parse : cell -> option Timestamp)
    (target_hour target_minute : Z) (csd_15_min : Frame) : Result Frame :=
  rbind (convert_endDateTime parse csd_15_min) (fun csd =>
  Return (where_ (at_target target_hour target_minute) csd)).

End Table.

(** ** The script *)

Module Script.
Import Clock Table.

(** The keyword arguments of [nu.load_by_product]. *)
Record Query : Type := mkQuery {
  dpid : string; site : string; startdate : string; enddate : string;
  release : string; package : string; check_size : bool;
  token : option string
}.

(** What a bundle holds under a key: a table or a text. *)
Inductive value : Type :=
  | Table (f : Frame)
  | Text (s : string).

(** What a download returns: a [dict], in the order of its items, or
    anything else. *)
Inductive PyValue : Type :=
  | PyDict (items : list (string * value))
  | PyOther.

(** The collaborators of the script. *)
Record Env : Type := mkEnv {
  load_by_product : Query -> Result PyValue;
  neon_token : option string;          (* os.environ.get("NEON_TOKEN") *)
  open_error : string -> option exn;   (* why a path cannot be opened for writing *)
  parse_datetime : cell -> option Timestamp;
  to_csv : Frame -> string;            (* the text of to_csv(index=False) *)
  repr_value : value -> string;
  repr_str : string -> string;
  str_exn : exn -> string              (* the text of an exception *)
}.

(** What the script changes: files, console lines, and the requests made
    to the download service. *)
Record World : Type := mkWorld {
  fs : gmap string string;
  stdout : list string;
  requests : list Query
}.

Definition M (A : Type) : Type := World -> Result A * World.

Definition ret {A} (a : A) : M A := fun w => (Return a, w).

Definition bind {A B} (c : M A) (k : A -> M B) : M B :=
  fun w => match c w with
           | (Return a, w') => k a w'
           | (Raise e, w') => (Raise e, w')
           end.

Definition lift {A} (r : Result A) : M A := fun w => (r, w).

(** [try: c  except Exception as e: h e]. *)
Definition try_except {A} (c : M A) (h : exn -> M A) : M A :=
  fun w => match c w with
           | (Return a, w') => (Return a, w')
           | (Raise e, w') => h e w'
           end.

Notation "x <- c ;; k" := (bind c (fun x => k))
  (at level 100, c at next level, right associativity).
Notation "c ;;; k" := (bind c (fun _ => k))
  (at level 100, right associativity).

(** The three ways the script changes the world. *)
Definition logged (line : string) (w : World) : World :=
  {| fs := fs w; stdout := stdout w ++ [line]; requests := requests w |}.

Definition written (path content : string) (w : World) : World :=
  {| fs := <[path := content]> (fs w); stdout := stdout w;
     requests := requests w |}.

Definition requested (q : Query) (w : World) : World :=
  {| fs := fs w; stdout := stdout w; requests := requests w ++ [q] |}.

Definition print (line : string) : M unit :=
  fun w => (Return tt, logged line w).

(** [with open(path, "w") as f: print(content, file=f)] and [to_csv(path)]:
    the file is created or replaced. *)
Definition write_file (E : Env) (path content : string) : M unit :=
  fun w => match open_error E path with
           | Some e => (Raise e, w)
           | None => (Return tt, written path content w)
           end.

Definition download (E : Env) (q : Query) : M PyValue :=
  fun w => (load_by_product E q, requested q w).

(** [str] of a list: the [repr] of its items between brackets. *)
Fixpoint join (sep : string) (l : list string) : string :=
  match l with
  | [] => ""
  | [x] => x
  | x :: l' => x +:+ sep +:+ join sep l'
  end.

Definition str_list (E : Env) (l : list value) : string :=
  "[" +:+ join ", " (map (repr_value E) l) +:+ "]".

Definition citation_path (savepath siteid dpnum : string) : string :=
  savepath +:+ siteid +:+ "_citation_" +:+ dpnum +:+ ".txt".

Definition daily_path (savepath siteid dpnum : string) : string :=
  savepath +:+ siteid +:+ "_daily_" +:+ dpnum +:+ ".csv".

(** [write_citation], lines 8-29. *)
Definition write_citation (E : Env) (dpnum siteid : string)
    (data : list (string * value)) (savepath : string) : M unit :=
  let citations :=
    map snd (List.filter
               (fun kv => Text.contains ("citation_" +:+ dpnum) (Text.lower (fst kv)))
               data) in
  write_file E (savepath +:+ siteid +:+ "_citation_" +:+ dpnum +:+ ".txt")
             (str_list E citations +:+ Text.newline).

(** [data[key]] on a dict. *)
Definition getitem (key : string) (data : list (string * value)) : Result value :=
  match List.find (fun kv => String.eqb key (fst kv)) data with
  | Some kv => Return (snd kv)
  | None => Raise (KeyError key)
  end.

(** The first subscript [v[column]] applied to a bundle entry. *)
Definition as_table (column : string) (v : value) : Result Frame :=
  match v with
  | Table f => Return f
  | Text _ => Raise (TypeError_subscript column)
  end.

Definition query (E : Env) (dp siteid startmonth endmonth : string) : Query :=
  {| dpid := dp; site := siteid; startdate := startmonth; enddate := endmonth;
     release := "RELEASE-2026"; package := "basic"; check_size := false;
     token := neon_token E |}.

(** The branch [if isinstance(data, dict)] of the first [try],
    lines 77-137. *)
Definition summarize_water_quality (E : Env)
    (savepath siteid timeutc : string) (target_hour target_minute : Z)
    (data : list (string * value)) : M unit :=
  write_citation E "20288" siteid data savepath ;;;
  v <- lift (getitem "waq_instantaneous" data) ;;
  waq_instantaneous <- lift (as_table "horizontalPosition" v) ;;
  daily_averages <-
    lift (summarize_waq (parse_datetime E) timeutc
            target_hour target_minute waq_instantaneous) ;;
  write_file E (savepath +:+ siteid +:+ "_daily_20288.csv")
             (to_csv E daily_averages).

(** The body of the first [try], lines 62-137. *)
Definition water_quality (E : Env)
    (savepath siteid startmonth endmonth timeutc : string)
    (target_hour target_minute : Z) : M unit :=
  data <- download E (query E "DP1.20288.001" siteid startmonth endmonth) ;;
  match data with
  | PyDict data =>
      summarize_water_quality E savepath siteid timeutc
        target_hour target_minute data
  | PyOther => ret tt
  end.

(** The branch [if isinstance(data, dict)] of the second [try],
    lines 160-180. *)
Definition summarize_discharge (E : Env)
    (savepath siteid : string) (target_hour target_minute : Z)
    (data : list (string * value)) : M unit :=
  write_citation E "00130" siteid data savepath ;;;
  v <- lift (getitem "csd_15_min" data) ;;
  csd_15_min <- lift (as_table "endDateTime" v) ;;
  csd_filtered <-
    lift (subset_csd (parse_datetime E) target_hour target_minute csd_15_min) ;;
  write_file E (savepath +:+ siteid +:+ "_daily_00130.csv")
             (to_csv E csd_filtered).

(** The body of the second [try], lines 145-180. *)
Definition discharge (E : Env)
    (savepath siteid startmonth endmonth : string)
    (target_hour target_minute : Z) : M unit :=
  data <- download E (query E "DP4.00130.001" siteid startmonth endmonth) ;;
  match data with
  | PyDict data =>
      summarize_discharge E savepath siteid target_hour target_minute data
  | PyOther => ret tt
  end.

Definition error_downloading (E : Env) (e : exn) : string :=
  "Error downloading data: " +:+ str_exn E e.

Definition both_saved : string :=
  "Both data products successfully summarized and saved to savapath".

(** How a call of [neon_dwnld_sum_daily] ends when it does not raise. *)
Inductive Outcome : Type :=
  | ReturnedEarly      (* [return None] in a handler, lines 141 and 184 *)
  | Finished.          (* line 187 *)

(** [neon_dwnld_sum_daily], lines 31-187. *)
Definition neon_dwnld_sum_daily (E : Env)
    (savepath siteid startmonth endmonth timeutc : string) : M Outcome :=
  target <- lift (parse_timeutc timeutc) ;;
  let target_hour := fst target in
  let target_minute := snd target in
  first_try <-
    try_except
      (water_quality E savepath siteid startmonth endmonth timeutc
         target_hour target_minute ;;; ret Finished)
      (fun e => print (error_downloading E e) ;;; ret ReturnedEarly) ;;
  match first_try with
  | ReturnedEarly => ret ReturnedEarly
  | Finished =>
      second_try <-
        try_except
          (discharge E savepath siteid startmonth endmonth
             target_hour target_minute ;;; ret Finished)
          (fun e => print (error_downloading E e) ;;; ret ReturnedEarly) ;;
      match second_try with
      | ReturnedEarly => ret ReturnedEarly
      | Finished => print both_saved ;;; ret Finished
      end
  end.

(** The table of [main], lines 194-199, in the order of the literal. *)
Record Params : Type := mkParams {
  startmonth : string; endmonth : string; timeutc : string
}.

Definition site_inputs : list (string * Params) :=
  [ ("LEWI", mkParams "2023-10" "2024-09" "16:00");
    ("COMO", mkParams "2023-10" "2024-09" "18:00");
    ("LECO", mkParams "2023-10" "2024-09" "16:00");
    ("MCRA", mkParams "2023-10" "2024-09" "19:00") ]%string.

Definition main_savepath : string :=
  "C:/Users/nickerson/Documents/GitHub/PEP2026/neon_script/data/".

(** [repr] of the dict [params]. *)
Definition repr_params (E : Env) (p : Params) : string :=
  "{" +:+ repr_str E "startmonth" +:+ ": " +:+ repr_str E (startmonth p)
  +:+ ", " +:+ repr_str E "endmonth" +:+ ": " +:+ repr_str E (endmonth p)
  +:+ ", " +:+ repr_str E "timeutc" +:+ ": " +:+ repr_str E (timeutc p) +:+ "}".

Definition processing_site (E : Env) (siteid : string) (p : Params) : string :=
  "Processing site " +:+ siteid +:+ " with parameters: " +:+ repr_params E p.

Definition error_processing (E : Env) (siteid : string) (e : exn) : string :=
  "Error processing site " +:+ siteid +:+ ": " +:+ str_exn E e.

(** The body of the loop of [main], lines 203-214. *)
Definition process_site (E : Env) (entry : string * Params) : M unit :=
  let siteid := fst entry in
  let params := snd entry in
  try_except
    (print (processing_site E siteid params) ;;;
     neon_dwnld_sum_daily E main_savepath siteid
       (startmonth params) (endmonth params) (timeutc params) ;;;
     ret tt)
    (fun e => print (error_processing E siteid e)).

(** [for siteid, params in table.items(): ...]. *)
Fixpoint for_each_site (E : Env) (table : list (string * Params)) : M unit :=
  match table with
  | [] => ret tt
  | entry :: table' => process_site E entry ;;; for_each_site E table'
  end.

Definition all_processed : string := "All sites processed successfully".

(** [main], lines 189-217. *)
Definition main (E : Env) : M unit :=
  for_each_site E site_inputs ;;; print all_processed.

End Script.

(** ** The specification's vocabulary *)

Module Spec.
Import Clock Table Script.

(** Minutes from midnight of a clock time. *)
Definition minutes_from_midnight (t : Timestamp) : Q :=
  (inject_Z (hour t) * 60 + inject_Z (minute t) + inject_Z (second t) / 60)%Q.

Definition target_minutes (target_hour target_minute : Z) : Q :=
  (inject_Z target_hour * 60 + inject_Z target_minute)%Q.

(** The circular distance: the absolute difference, replaced by 1440
    minus itself when it exceeds 720. *)
Definition wrapped_distance (t : Timestamp) (target_hour target_minute : Z) : Q :=
  let d := Qabs (minutes_from_midnight t
                 - target_minutes target_hour target_minute) in
  if Qlt_le_dec 720 d then (1440 - d)%Q else d.

(** The arithmetic mean of the values present in a list of cells. *)
Fixpoint present (vals : list cell) : list Q :=
  match vals with
  | [] => []
  | Num q :: vals' => q :: present vals'
  | _ :: vals' => present vals'
  end.

Definition arithmetic_mean (vals : list cell) : option Q :=
  match present vals with
  | [] => None
  | xs => Some (fold_left Qplus xs 0 / inject_Z (Z.of_nat (length xs)))%Q
  end.


(** A text reads as two integers separated by one colon. *)
Definition two_integers (text : string) (a b : Z) : Prop :=
  exists h m, Text.split ":" text = [h; m]
              /\ Text.py_int h = Return a /\ Text.py_int m = Return b.

(** A computation leaves the console and the requests as they are, and
    the files too except those at [paths]. *)
Definition changes_only (paths : list string) (w w' : World) : Prop :=
  stdout w' = stdout w
  /\ requests w' = requests w
  /\ forall p, ~ In p paths -> fs w' !! p = fs w !! p.

Definition confined {A} (paths : list string) (c : M A) : Prop :=
  forall w, changes_only paths w (snd (c w)).

(** The requests for the water-quality product, in the order made. *)
Definition water_quality_sites (qs : list Query) : list string :=
  map site (List.filter (fun q => String.eqb (dpid q) "DP1.20288.001") qs).

(** Two cells hold the same value: rationals up to their fraction. *)
Definition same_value (a b : cell) : Prop :=
  match a, b with
  | Num p, Num q => (p == q)%Q
  | _, _ => a = b
  end.

(** One timestamp comes before another. *)
Definition before (a b : Timestamp) : Prop :=
  year a < year b \/ (year a = year b /\
  (month a < month b \/ (month a = month b /\
  (day a < day b \/ (day a = day b /\
  (hour a < hour b \/ (hour a = hour b /\
  (minute a < minute b \/ (minute a = minute b /\ second a < second b))))))))).

(** The reading's own calendar day at the given clock time. *)
Definition day_at (t : Timestamp) (H M : Z) : Timestamp :=
  {| year := year t; month := month t; day := day t;
     hour := H; minute := M; second := 0 |}.

Definition mean_cell (vals : list cell) : cell :=
  match arithmetic_mean vals with
  | Some q => Num q
  | None => NA
  end.



(** The reading was taken on the calendar day of [t]. *)
Definition on_day (t : Timestamp) (r : gmap string cell) : bool :=
  match cell_at "endDateTime" r with
  | Time t' => ((year t' =? year t) && (month t' =? month t)
                && (day t' =? day t))%bool
  | _ => false
  end.

(** The dtype invariant of a table: a column of numeric dtype holds
    numbers and missing values only. *)
Definition is_numeric_cell (c : cell) : bool :=
  match c with Num _ | NA => true | _ => false end.

Definition well_typed (f : Frame) : Prop :=
  forall r c, In r (rows f) -> In (c, Number) (columns f) ->
              is_numeric_cell (cell_at c r) = true.

(** Whole seconds from midnight, and the distance in seconds between a
    clock time and a target time, straight and around the day. *)
Definition seconds_from_midnight (t : Timestamp) : Z :=
  3600 * hour t + 60 * minute t + second t.

Definition seconds_apart (t : Timestamp) (target_hour target_minute : Z) : Z :=
  Z.abs (seconds_from_midnight t - 60 * (60 * target_hour + target_minute)).

Definition circular_seconds (t : Timestamp) (target_hour target_minute : Z) : Z :=
  Z.min (seconds_apart t target_hour target_minute)
        (86400 - seconds_apart t target_hour target_minute).

(** The number of readings in each group. *)
Definition group_sizes (keys : list Timestamp) (rs : list (gmap string cell))
  : list nat :=
  map (fun k => length (group k rs)) keys.

Definition is_dated (r : gmap string cell) : bool :=
  match cell_at "date" r with Time _ => true | _ => false end.

(** The entry of a site table has a target time that line 58 can read. *)
Definition readable (entry : string * Params) : bool :=
  match parse_timeutc (timeutc (snd entry)) with
  | Return _ => true
  | Raise _ => false
  end.

(** The four files of a site. *)
Definition site_files (savepath siteid : string) : list string :=
  [citation_path savepath siteid "20288"; daily_path savepath siteid "20288";
   citation_path savepath siteid "00130"; daily_path savepath siteid "00130"].

End Spec.

(** ** Sample data *)

Module Examples.
Import Clock Table Script.
Local Open Scope string_scope.

Definition on (d h m s : Z) : Timestamp := mkTimestamp 2024 3 d h m s.

Definition reading (t : Timestamp) (position : string) (pH release : cell)
  : gmap string cell :=
  <["endDateTime" := Time t]>
    (<["horizontalPosition" := Str position]>
       (<["pH" := pH]> (<["release" := release]> ∅))).

Definition waq_columns : list (string * dtype) :=
  [("endDateTime", Datetime); ("horizontalPosition", Object);
   ("pH", Number); ("release", Object)].


(** One reading inside the window on each of two days, and one outside. *)
Definition waq_one : Frame :=
  {| columns := waq_columns;
     rows := [ reading (on 9 16 3 0) "110" (Num (73 # 10)) (Str "RELEASE-2026");
               reading (on 9 16 20 0) "110" (Num 9) (Str "RELEASE-2026");
               reading (on 10 15 55 30) "110" NA (Str "RELEASE-2026") ] |}.

Definition csd_columns : list (string * dtype) :=
  [("endDateTime", Datetime); ("siteID", Object); ("usgsDischarge", Number)].

Definition flow (t : Timestamp) (q : Q) : gmap string cell :=
  <["endDateTime" := Time t]>
    (<["siteID" := Str "LECO"]> (<["usgsDischarge" := Num q]> ∅)).

Definition csd : Frame :=
  {| columns := csd_columns;
     rows := [ flow (on 9 15 45 0) 11; flow (on 9 15 59 0) 12;
               flow (on 9 16 0 0) 13; flow (on 10 16 0 0) 14 ] |}.

Definition the {A} (default : A) (r : Result A) : A :=
  match r with
  | Return a => a
  | Raise _ => default
  end.

Definition no_frame : Frame := {| columns := []; rows := [] |}.

Definition dated (f : Frame) : Frame :=
  the no_frame (add_date "16:00" (filter_window 16 0 f)).

Definition daily (f : Frame) : Frame :=
  the no_frame (daily_averages (dated f)).

Definition waq_bundle : list (string * value) :=
  [ ("waq_instantaneous", Table waq_one);
    ("citation_20288_RELEASE-2026", Text "NEON (2026) Water quality");
    ("readme_20288", Text "readme") ].

Definition csd_bundle : list (string * value) :=
  [ ("csd_15_min", Table csd);
    ("Citation_00130_RELEASE-2026", Text "NEON (2026) Continuous discharge") ].

Definition quoted (s : string) : string := "'" +:+ s +:+ "'".

Definition renderings (service : Query -> Result PyValue)
    (unwritable : string -> option exn) : Env :=
  {| load_by_product := service;
     neon_token := None;
     open_error := unwritable;
     parse_datetime := fun _ => None;
     to_csv := fun f => join "," (labels f);
     repr_value := fun v => match v with
                            | Text s => quoted s
                            | Table f => join "," (labels f)
                            end;
     repr_str := quoted;
     str_exn := fun e => match e with
                         | ServiceError m => m
                         | KeyError k => quoted k
                         | OSError p => p
                         | ValueError_int l => quoted l
                         | ValueError_format x => quoted x
                         | TypeError_subscript k => k
                         | _ => "ValueError"
                         end |}.

(** A service that answers both products. *)
Definition service (q : Query) : Result PyValue :=
  if String.eqb (dpid q) "DP1.20288.001" then Return (PyDict waq_bundle)
  else Return (PyDict csd_bundle).

(** A service that is down for the water-quality product. *)
Definition service_down (q : Query) : Result PyValue :=
  if String.eqb (dpid q) "DP1.20288.001" then Raise (ServiceError "503")
  else Return (PyDict csd_bundle).

(** A service that answers the water-quality request with no bundle. *)
Definition service_empty (q : Query) : Result PyValue :=
  if String.eqb (dpid q) "DP1.20288.001" then Return PyOther
  else Return (PyDict csd_bundle).

Definition env : Env := renderings service (fun _ => None).
Definition env_down : Env := renderings service_down (fun _ => None).
Definition env_empty : Env := renderings service_empty (fun _ => None).

Definition start : World := {| fs := ∅; stdout := []; requests := [] |}.

(** Two days in the window of 16:00, the later day first. *)
Definition waq_reversed : Frame :=
  {| columns := waq_columns;
     rows := [ reading (on 10 16 1 0) "132" (Num 6) (Str "RELEASE-2026");
               reading (on 9 15 59 0) "132" (Num 5) (Str "RELEASE-2026") ] |}.

(** One reading half an hour after midnight. *)
Definition waq_midnight : Frame :=
  {| columns := waq_columns;
     rows := [ reading (on 9 0 30 0) "102" (Num 7) (Str "RELEASE-2026") ] |}.

Definition summary (f : Frame) : Frame :=
  the no_frame (summarize_waq (fun _ => None) "16:00" 16 0 f).

(** A water-quality bundle without its table. *)
Definition bundle_no_table : list (string * value) :=
  [ ("citation_20288_RELEASE-2026", Text "NEON (2026) Water quality") ].

Definition service_no_table (q : Query) : Result PyValue :=
  if String.eqb (dpid q) "DP1.20288.001" then Return (PyDict bundle_no_table)
  else Return (PyDict csd_bundle).

(** A service that is down for the discharge product. *)
Definition service_discharge_down (q : Query) : Result PyValue :=
  if String.eqb (dpid q) "DP1.20288.001" then Return (PyDict waq_bundle)
  else Raise (ServiceError "timeout").

(** A service that answers no request with a bundle. *)
Definition service_nothing (q : Query) : Result PyValue := Return PyOther.

Definition env_no_table : Env := renderings service_no_table (fun _ => None).
Definition env_discharge_down : Env :=
  renderings service_discharge_down (fun _ => None).
Definition env_nothing : Env := renderings service_nothing (fun _ => None).

End Examples.

(** * Properties *)

Import Clock Table Script.

(** ** The time window *)

Section TimeWindow.

Lemma minutes_from_midnight_eq t :
  (inject_Z (hour t * 60 + minute t) + inject_Z (second t) / 60
   == Spec.minutes_from_midnight t)%Q.
Proof.
  unfold Spec.minutes_from_midnight.
  rewrite inject_Z_plus, inject_Z_mult. reflexivity.
Qed.

Lemma target_minutes_eq h m :
  (inject_Z (h * 60 + m) == Spec.target_minutes h m)%Q.
Proof.
  unfold Spec.target_minutes.
  rewrite inject_Z_plus, inject_Z_mult. reflexivity.
Qed.

(** The source's test is the comparison of the wrapped distance with
    seven and a half minutes. *)
Lemma is_within_window_iff t target_h target_m :
  is_within_window t target_h target_m = true
  <-> (Spec.wrapped_distance t target_h target_m <= 75 # 10)%Q.
Proof.
  unfold is_within_window, Spec.wrapped_distance, Qgt_bool.
  rewrite Qle_bool_iff.
  set (d := Qabs (inject_Z (hour t * 60 + minute t) + inject_Z (second t) / 60
                  - inject_Z (target_h * 60 + target_m))).
  set (d' := Qabs (Spec.minutes_from_midnight t
                   - Spec.target_minutes target_h target_m)).
  assert (Hd : (d == d')%Q).
  { unfold d, d'.
    rewrite minutes_from_midnight_eq, target_minutes_eq. reflexivity. }
  change (inject_Z (12 * 60)) with (inject_Z 720).
  change (inject_Z (24 * 60)) with (inject_Z 1440).
  destruct (Qle_bool d (inject_Z 720)) eqn:Hle; simpl.
  - apply Qle_bool_iff in Hle.
    destruct (Qlt_le_dec 720 d') as [Hlt | Hge].
    + exfalso. rewrite <- Hd in Hlt.
      exact (Qlt_not_le _ _ Hlt Hle).
    + rewrite Hd. reflexivity.
  - assert (Hgt : (720 < d)%Q).
    { apply Qnot_le_lt. intros H. apply Qle_bool_iff in H.
      change 720%Q with (inject_Z 720) in H. congruence. }
    destruct (Qlt_le_dec 720 d') as [Hlt | Hge].
    + change (inject_Z 1440) with 1440%Q. rewrite Hd. reflexivity.
    + exfalso. rewrite <- Hd in Hge.
      exact (Qlt_not_le _ _ Hgt Hge).
Qed.

Lemma filter_window_rows_eq target_h target_m f :
  rows (filter_window target_h target_m f)
  = List.filter (in_window target_h target_m) (rows f).
Proof. unfold filter_window, where_. now destruct (rows f). Qed.

Lemma filter_window_rows target_h target_m f r :
  In r (rows (filter_window target_h target_m f))
  <-> In r (rows f) /\ in_window target_h target_m r = true.
Proof. rewrite filter_window_rows_eq. apply filter_In. Qed.

Lemma in_window_iff target_h target_m r :
  in_window target_h target_m r = true
  <-> exists t, cell_at "endDateTime" r = Time t
                /\ (Spec.wrapped_distance t target_h target_m <= 75 # 10)%Q.
Proof.
  unfold in_window. split.
  - destruct (cell_at "endDateTime" r) as [q | s | t |] eqn:Hc;
      try discriminate.
    intros H. exists t. split; [reflexivity |].
    now apply is_within_window_iff.
  - intros (t & Ht & Hd). rewrite Ht. now apply is_within_window_iff.
Qed.

(** C1. The window filter keeps a reading exactly when the circular
    distance between its clock time and the target, in minutes, is at most
    7.5; a distance of exactly 7.5 keeps the reading, a larger one drops
    it, and the calendar date plays no part. *)
Theorem C1_window_filter_keeps_iff_within_seven_and_a_half
    (target_h target_m : Z) :
  (forall f r,
      In r (rows (filter_window target_h target_m f))
      <-> In r (rows f)
          /\ exists t, cell_at "endDateTime" r = Time t
                       /\ (Spec.wrapped_distance t target_h target_m <= 75 # 10)%Q)
  /\ (forall t, (Spec.wrapped_distance t target_h target_m == 75 # 10)%Q ->
                is_within_window t target_h target_m = true)
  /\ (forall t, (75 # 10 < Spec.wrapped_distance t target_h target_m)%Q ->
                is_within_window t target_h target_m = false)
  /\ (forall t t', hour t = hour t' -> minute t = minute t' ->
                   second t = second t' ->
                   is_within_window t target_h target_m
                   = is_within_window t' target_h target_m).
Proof.
  split; [| split; [| split]].
  - intros f r. rewrite filter_window_rows, in_window_iff. reflexivity.
  - intros t H. apply is_within_window_iff. rewrite H. apply Qle_refl.
  - intros t H.
    destruct (is_within_window t target_h target_m) eqn:Hw; [| reflexivity].
    apply is_within_window_iff in Hw.
    exfalso. exact (Qlt_not_le _ _ H Hw).
  - intros t t' Hh Hm Hs. unfold is_within_window.
    now rewrite Hh, Hm, Hs.
Qed.

(** *** The test in binary64 *)

Lemma upto_In n z : 0 <= z < Z.of_nat n -> In z (upto n).
Proof.
  intros H. unfold upto. apply in_map_iff. exists (Z.to_nat z).
  split; [lia |]. apply in_seq. lia.
Qed.

Lemma float_agrees_all_day_sound target_h target_m dt :
  float_agrees_all_day target_h target_m = true ->
  0 <= hour dt < 24 -> 0 <= minute dt < 60 -> 0 <= second dt < 60 ->
  is_within_window_float dt target_h target_m
  = is_within_window dt target_h target_m.
Proof.
  intros H Hh Hm Hs. unfold float_agrees_all_day in H.
  rewrite forallb_forall in H.
  specialize (H (hour dt) (upto_In 24 _ Hh)).
  rewrite forallb_forall in H.
  specialize (H (minute dt) (upto_In 60 _ Hm)).
  rewrite forallb_forall in H.
  specialize (H (second dt) (upto_In 60 _ Hs)).
  apply Bool.eqb_prop in H. exact H.
Qed.

(** X4. For the target times of the site table, rounding never changes the
    answer of the window test: evaluated in binary64 it keeps and drops the
    same clock times as with exact minutes. *)
Lemma is_within_window_float_site_inputs entry target_h target_m dt :
  In entry site_inputs ->
  parse_timeutc (timeutc (snd entry)) = Return (target_h, target_m) ->
  0 <= hour dt < 24 -> 0 <= minute dt < 60 -> 0 <= second dt < 60 ->
  is_within_window_float dt target_h target_m
  = is_within_window dt target_h target_m.
Proof.
  intros Hin Hp. apply float_agrees_all_day_sound.
  simpl in Hin. destruct Hin as [<- | [<- | [<- | [<- | []]]]];
    vm_compute in Hp; injection Hp as <- <-; vm_compute; reflexivity.
Qed.

(** The readings the specification singles out. *)
Example window_boundary_included :
  is_within_window (mkTimestamp 2024 3 9 16 7 30) 16 0 = true.
Proof. reflexivity. Qed.

Example window_past_boundary_excluded :
  is_within_window (mkTimestamp 2024 3 9 16 7 31) 16 0 = false.
Proof. reflexivity. Qed.

Example window_wraps_midnight :
  is_within_window (mkTimestamp 2024 3 9 23 59 0) 0 2 = true.
Proof. reflexivity. Qed.

End TimeWindow.

(** ** Reading the target time *)

Section TargetTime.

(** A [strptime] field read by [int] gives the same number. *)
Lemma field2_py_int s v :
  Text.field2 s = Some v -> Text.py_int s = Return v.
Proof.
  destruct s as [| a [| b [| c s]]]; simpl; try discriminate.
  - intros H.
    destruct a as [[] [] [] [] [] [] [] []]; vm_compute in H;
      try discriminate H; injection H as <-; reflexivity.
  - intros H.
    destruct a as [[] [] [] [] [] [] [] []]; simpl in H;
      try discriminate H;
      destruct b as [[] [] [] [] [] [] [] []]; vm_compute in H;
      try discriminate H; injection H as <-; reflexivity.
Qed.

Lemma space_not_colon a : Text.is_space a = true -> Ascii.eqb a ":" = false.
Proof.
  destruct a as [[] [] [] [] [] [] [] []]; intros H; try reflexivity;
    discriminate H.
Qed.

(** White space before the hour stays with the hour when line 58 splits the
    text, and [int] drops it as the format does. *)
Lemma split_lstrip text :
  exists ws,
    (forall x, Text.lstrip (ws +:+ x) = Text.lstrip x)
    /\ forall hd tl, Text.split ":" (Text.lstrip text) = hd :: tl ->
                     Text.split ":" text = (ws +:+ hd) :: tl.
Proof.
  induction text as [| a text (ws & Hws & IH)].
  - exists EmptyString. split; [reflexivity | trivial].
  - simpl Text.lstrip. destruct (Text.is_space a) eqn:Ha.
    + exists (String a ws). split.
      * intros x. simpl. now rewrite Ha.
      * intros hd tl H. simpl. rewrite (space_not_colon _ Ha).
        now rewrite (IH _ _ H).
    + exists EmptyString. split; [reflexivity | trivial].
Qed.

Lemma py_int_blank ws h v :
  (forall x, Text.lstrip (ws +:+ x) = Text.lstrip x) ->
  Text.py_int h = Return v -> Text.py_int (ws +:+ h) = Return v.
Proof.
  intros Hws. unfold Text.py_int, Text.strip. rewrite Hws.
  destruct (match Text.rstrip (Text.lstrip h) with
            | EmptyString => _
            | String _ _ => _
            end) as [z |]; [| discriminate].
  destruct (Text.max_str_digits <? _); [discriminate | trivial].
Qed.

(** When the format of line 119 accepts [timeutc], it reads the hour and
    minute that line 58 read. *)
Lemma strptime_HM_parse_timeutc timeutc H M :
  strptime_HM timeutc = Some (H, M) -> parse_timeutc timeutc = Return (H, M).
Proof.
  unfold strptime_HM, parse_timeutc.
  destruct (split_lstrip timeutc) as (ws & Hws & Hsplit).
  destruct (Text.split ":" (Text.lstrip timeutc)) as [| h [| m [| x l]]];
    try discriminate.
  rewrite (Hsplit _ _ eq_refl).
  destruct (Text.field2 h) as [vh |] eqn:Hh; try discriminate.
  destruct (Text.field2 m) as [vm |] eqn:Hm; try discriminate.
  destruct ((vh <=? 23) && (vm <=? 59))%bool; try discriminate.
  intros [= <- <-].
  rewrite (py_int_blank _ _ _ Hws (field2_py_int _ _ Hh)),
    (field2_py_int _ _ Hm).
  reflexivity.
Qed.

Lemma at_requested_time_day_at timeutc target_hour target_minute t d :
  parse_timeutc timeutc = Return (target_hour, target_minute) ->
  at_requested_time t timeutc = Return d ->
  d = Spec.day_at t target_hour target_minute.
Proof.
  unfold at_requested_time. intros Hp.
  destruct (strptime_HM timeutc) as [[H M] |] eqn:Hs; try discriminate.
  apply strptime_HM_parse_timeutc in Hs. rewrite Hs in Hp.
  injection Hp as -> ->. intros [= <-]. reflexivity.
Qed.

End TargetTime.

(** ** Results and tables *)

Section Tables.

Lemma rbind_Return {A B} (r : Result A) (k : A -> Result B) b :
  rbind r k = Return b -> exists a, r = Return a /\ k a = Return b.
Proof. destruct r as [a | e]; simpl; [eauto | discriminate]. Qed.

Lemma rmap_Return {A B} (f : A -> Result B) l l' :
  rmap f l = Return l' -> Forall2 (fun x y => f x = Return y) l l'.
Proof.
  revert l'. induction l as [| x l IH]; simpl; intros l' H.
  - injection H as <-. constructor.
  - apply rbind_Return in H. destruct H as (y & Hy & H).
    apply rbind_Return in H. destruct H as (ys & Hys & H).
    injection H as <-. constructor; auto.
Qed.

Lemma assign_Return c d value f f' :
  assign c d value f = Return f' ->
  columns f' = set_dtype c d (columns f)
  /\ Forall2 (fun r r' => exists v, value r = Return v /\ r' = <[c := v]> r)
             (rows f) (rows f').
Proof.
  unfold assign. intros H.
  apply rbind_Return in H. destruct H as (rs & Hrs & H).
  injection H as <-. simpl. split; [reflexivity |].
  apply rmap_Return in Hrs.
  induction Hrs as [| r r' l l' Hr _ IH]; constructor; auto.
  apply rbind_Return in Hr. destruct Hr as (v & Hv & Hr).
  injection Hr as <-. eauto.
Qed.

Lemma add_date_assign timeutc f dated :
  add_date timeutc f = Return dated ->
  assign "date" Datetime (synthetic_date timeutc) f = Return dated.
Proof.
  unfold add_date. now destruct (has_column "endDateTime" f).
Qed.

(** The date step succeeds only on a window filter that had rows to look
    at, and that filter keeps the columns. *)
Lemma add_date_filter_window timeutc th tm f dated :
  add_date timeutc (filter_window th tm f) = Return dated ->
  filter_window th tm f = where_ (in_window th tm) f.
Proof.
  unfold filter_window. destruct (rows f); [discriminate | reflexivity].
Qed.

Lemma cell_at_insert c v (r : gmap string cell) :
  cell_at c (<[c := v]> r) = v.
Proof. unfold cell_at. now rewrite lookup_insert_eq. Qed.

Lemma cell_at_insert_ne c c' v (r : gmap string cell) :
  c <> c' -> cell_at c' (<[c := v]> r) = cell_at c' r.
Proof. intros H. unfold cell_at. now rewrite lookup_insert_ne. Qed.

Lemma mem_In c cs : mem c cs = true <-> In c cs.
Proof.
  unfold mem. rewrite existsb_exists. split.
  - intros (x & Hx & Heq). apply String.eqb_eq in Heq. now subst.
  - intros H. exists c. split; [assumption | apply String.eqb_refl].
Qed.

(** *** Group keys *)

Lemma compare_Eq a b : compare a b = Eq -> a = b.
Proof.
  destruct a as [y mo d h mi s], b as [y' mo' d' h' mi' s'].
  unfold compare. simpl.
  destruct (y ?= y') eqn:Hy; try discriminate.
  destruct (mo ?= mo') eqn:Hmo; try discriminate.
  destruct (d ?= d') eqn:Hd; try discriminate.
  destruct (h ?= h') eqn:Hh; try discriminate.
  destruct (mi ?= mi') eqn:Hmi; try discriminate.
  intros Hs.
  apply Z.compare_eq in Hy, Hmo, Hd, Hh, Hmi, Hs. now subst.
Qed.

Lemma insert_key_In k ks x :
  In x (insert_key k ks) <-> x = k \/ In x ks.
Proof.
  induction ks as [| k' ks IH]; simpl.
  - intuition.
  - destruct (compare k k') eqn:Hc; simpl.
    + apply compare_Eq in Hc. subst k'. intuition.
    + intuition.
    + rewrite IH. intuition.
Qed.

Lemma group_keys_In rs k :
  In k (group_keys rs) <-> exists r, In r rs /\ cell_at "date" r = Time k.
Proof.
  induction rs as [| r rs IH]; simpl.
  - split; [intros [] | intros (r & [] & _)].
  - destruct (cell_at "date" r) as [q | s | t |] eqn:Hd.
    1, 2, 4: rewrite IH; split;
      [ intros (r' & Hin & Hk); eauto
      | intros (r' & [<- | Hin] & Hk); [congruence | eauto] ].
    rewrite insert_key_In, IH. split.
    + intros [-> | (r' & Hin & Hk)]; eauto.
    + intros (r' & [<- | Hin] & Hk).
      * left. congruence.
      * right. eauto.
Qed.

Lemma compare_Lt a b : compare a b = Lt <-> Spec.before a b.
Proof.
  unfold compare, Spec.before.
  destruct (Z.compare_spec (year a) (year b));
    [| split; [lia | reflexivity] | split; [discriminate | lia]].
  destruct (Z.compare_spec (month a) (month b));
    [| split; [lia | reflexivity] | split; [discriminate | lia]].
  destruct (Z.compare_spec (day a) (day b));
    [| split; [lia | reflexivity] | split; [discriminate | lia]].
  destruct (Z.compare_spec (hour a) (hour b));
    [| split; [lia | reflexivity] | split; [discriminate | lia]].
  destruct (Z.compare_spec (minute a) (minute b));
    [| split; [lia | reflexivity] | split; [discriminate | lia]].
  destruct (Z.compare_spec (second a) (second b));
    split; try discriminate; try reflexivity; lia.
Qed.

Lemma compare_Gt a b : compare a b = Gt <-> Spec.before b a.
Proof.
  unfold compare, Spec.before.
  destruct (Z.compare_spec (year a) (year b));
    [| split; [discriminate | lia] | split; [lia | reflexivity]].
  destruct (Z.compare_spec (month a) (month b));
    [| split; [discriminate | lia] | split; [lia | reflexivity]].
  destruct (Z.compare_spec (day a) (day b));
    [| split; [discriminate | lia] | split; [lia | reflexivity]].
  destruct (Z.compare_spec (hour a) (hour b));
    [| split; [discriminate | lia] | split; [lia | reflexivity]].
  destruct (Z.compare_spec (minute a) (minute b));
    [| split; [discriminate | lia] | split; [lia | reflexivity]].
  destruct (Z.compare_spec (second a) (second b));
    split; try discriminate; try reflexivity; lia.
Qed.

Lemma before_trans a b c : Spec.before a b -> Spec.before b c -> Spec.before a c.
Proof. unfold Spec.before. lia. Qed.

Lemma before_irrefl a : ~ Spec.before a a.
Proof. unfold Spec.before. lia. Qed.

Lemma insert_key_sorted k ks :
  StronglySorted Spec.before ks -> StronglySorted Spec.before (insert_key k ks).
Proof.
  induction 1 as [| k' ks Hs IH Hall]; simpl.
  - repeat constructor.
  - destruct (compare k k') eqn:Hc.
    + now constructor.
    + apply compare_Lt in Hc. constructor; [now constructor |].
      constructor; [exact Hc |].
      apply List.Forall_forall. intros x Hx. rewrite List.Forall_forall in Hall.
      eapply before_trans; [exact Hc | now apply Hall].
    + apply compare_Gt in Hc. constructor; [exact IH |].
      apply List.Forall_forall. intros x Hx. apply insert_key_In in Hx.
      destruct Hx as [-> | Hx]; [exact Hc |].
      rewrite List.Forall_forall in Hall. auto.
Qed.

(** The group keys come in chronological order, each once. *)
Lemma group_keys_sorted rs : StronglySorted Spec.before (group_keys rs).
Proof.
  induction rs as [| r rs IH]; simpl; [constructor |].
  destruct (cell_at "date" r); auto using insert_key_sorted.
Qed.

Lemma sorted_NoDup ks : StronglySorted Spec.before ks -> List.NoDup ks.
Proof.
  induction 1 as [| k ks Hs IH Hall]; constructor; [| exact IH].
  intros Hin. rewrite List.Forall_forall in Hall.
  exact (before_irrefl k (Hall k Hin)).
Qed.

Lemma has_key_true k r : has_key k r = true <-> cell_at "date" r = Time k.
Proof.
  unfold has_key. destruct (cell_at "date" r) as [q | s | t |];
    try (split; [discriminate | congruence]).
  rewrite bool_decide_eq_true. split; congruence.
Qed.

Lemma group_In k rs r :
  In r (group k rs) <-> In r rs /\ cell_at "date" r = Time k.
Proof. unfold group. rewrite filter_In, has_key_true. reflexivity. Qed.

End Tables.

(** ** The columns that are averaged and the columns that are carried *)

Section Columns.

Lemma existing_meta_In f c :
  In c (existing_meta f) <-> In c metadata_cols /\ In c (labels f).
Proof.
  unfold existing_meta. rewrite filter_In. unfold has_column.
  now rewrite mem_In.
Qed.

Lemma numeric_cols_In f c :
  In c (numeric_cols f)
  <-> In (c, Number) (columns f) /\ ~ In c metadata_cols.
Proof.
  unfold numeric_cols. rewrite filter_In, in_map_iff. split.
  - intros [((c', d) & Hc & Hin) Hmem]. simpl in Hc. subst c'.
    apply filter_In in Hin. destruct Hin as [Hin Hd]. simpl in Hd.
    destruct d; try discriminate. split; [assumption |].
    intros Hmeta. apply negb_true_iff in Hmem.
    assert (Hm : mem c (existing_meta f) = true).
    { apply mem_In, existing_meta_In. split; [assumption |].
      unfold labels. apply in_map_iff. now exists (c, Number). }
    congruence.
  - intros [Hin Hmeta]. split.
    + exists (c, Number). split; [reflexivity |].
      apply filter_In. now split.
    + apply negb_true_iff. destruct (mem c (existing_meta f)) eqn:Hm;
        [| reflexivity].
      apply mem_In, existing_meta_In in Hm. tauto.
Qed.

Lemma metadata_not_date c : In c metadata_cols -> c <> "date"%string.
Proof.
  unfold metadata_cols. simpl. intros [<- | [<- | [<- | [<- | []]]]];
    discriminate.
Qed.

Lemma set_dtype_In c d cols c' d' :
  In (c', d') (set_dtype c d cols) -> c' = c -> d' = d.
Proof.
  unfold set_dtype. destruct (mem c (map fst cols)) eqn:Hm.
  - rewrite in_map_iff. intros ((c0, d0) & Heq & _) ->. simpl in Heq.
    destruct (String.eqb c c0) eqn:E.
    + congruence.
    + injection Heq as <- <-. rewrite String.eqb_refl in E. discriminate.
  - rewrite in_app_iff. intros [Hin | [Heq | []]] ->.
    + assert (Hc : mem c (map fst cols) = true).
      { apply mem_In, in_map_iff. now exists (c, d'). }
      congruence.
    + congruence.
Qed.

Lemma set_dtype_has c d cols : In c (map fst (set_dtype c d cols)).
Proof.
  unfold set_dtype. destruct (mem c (map fst cols)) eqn:Hm.
  - apply mem_In, in_map_iff in Hm. destruct Hm as ((c0, d0) & <- & Hin).
    apply in_map_iff.
    exists (c0, d). split; [reflexivity |].
    apply in_map_iff. exists (c0, d0). simpl.
    rewrite String.eqb_refl. now split.
  - rewrite map_app, in_app_iff. right. now left.
Qed.

(** After line 117 the column [date] holds timestamps, so it is neither
    averaged nor carried as metadata. *)
Lemma add_date_columns timeutc f dated :
  add_date timeutc f = Return dated ->
  In "date"%string (labels dated)
  /\ ~ In "date"%string (numeric_cols dated)
  /\ ~ In "date"%string (existing_meta dated).
Proof.
  intros H. apply add_date_assign, assign_Return in H. destruct H as [Hc _].
  unfold labels. rewrite Hc. split; [apply set_dtype_has |]. split.
  - rewrite numeric_cols_In. intros [Hin _]. rewrite Hc in Hin.
    apply set_dtype_In in Hin; [discriminate | reflexivity].
  - rewrite existing_meta_In. intros [Hm _].
    now apply metadata_not_date in Hm.
Qed.

Lemma agg_map_In f c h :
  In (c, h) (agg_map f)
  <-> (h = Mean /\ In c (numeric_cols f))
      \/ (h = First /\ In c (existing_meta f)).
Proof.
  unfold agg_map. rewrite in_app_iff, !in_map_iff. split.
  - intros [(c' & [= <- <-] & Hin) | (c' & [= <- <-] & Hin)]; auto.
  - intros [[-> Hin] | [-> Hin]]; [left | right]; now exists c.
Qed.

Lemma numeric_not_meta f c :
  In c (numeric_cols f) -> ~ In c (existing_meta f).
Proof.
  rewrite numeric_cols_In, existing_meta_In. tauto.
Qed.

Lemma agg_map_labels f :
  map fst (agg_map f) = numeric_cols f ++ existing_meta f.
Proof.
  unfold agg_map. rewrite map_app, !map_map. simpl. now rewrite !map_id.
Qed.

(** *** One aggregated row *)

Lemma agg_row_date average m k g :
  cell_at "date" (agg_row_with average m k g) = Time k.
Proof. unfold agg_row_with. apply cell_at_insert. Qed.

Lemma agg_row_cell average m k g c h :
  c <> "date"%string ->
  In (c, h) m ->
  (forall h', In (c, h') m -> h' = h) ->
  cell_at c (agg_row_with average m k g)
  = reduce_with average h (map (cell_at c) g).
Proof.
  intros Hne Hin Huniq. unfold agg_row_with.
  rewrite cell_at_insert_ne by congruence.
  unfold cell_at. induction m as [| [c' h'] m IH]; [destruct Hin |].
  simpl. destruct (decide (c' = c)) as [-> | Hc].
  - rewrite lookup_insert_eq. simpl.
    now rewrite (Huniq h') by now left.
  - rewrite lookup_insert_ne by assumption.
    apply IH.
    + destruct Hin as [[= ? ?] | Hin]; [congruence | assumption].
    + intros h'' H''. apply Huniq. now right.
Qed.

Lemma agg_row_numeric average f k g c :
  c <> "date"%string ->
  In c (numeric_cols f) ->
  cell_at c (agg_row_with average (agg_map f) k g)
  = mean_with average (map (cell_at c) g).
Proof.
  intros Hne Hin. apply (agg_row_cell _ _ _ _ c Mean); [assumption | |].
  - apply agg_map_In. auto.
  - intros h' H'. apply agg_map_In in H'.
    destruct H' as [[-> _] | [_ Hm]]; [reflexivity |].
    now apply numeric_not_meta in Hin.
Qed.

Lemma agg_row_meta average f k g c :
  In c (existing_meta f) ->
  cell_at c (agg_row_with average (agg_map f) k g)
  = first (map (cell_at c) g).
Proof.
  intros Hin. apply (agg_row_cell _ _ _ _ c First).
  - apply metadata_not_date. now apply existing_meta_In in Hin.
  - apply agg_map_In. auto.
  - intros h' H'. apply agg_map_In in H'.
    destruct H' as [[_ Hn] | [-> _]]; [| reflexivity].
    now apply numeric_not_meta in Hn.
Qed.

End Columns.

(** ** The daily table *)

Section DailyTable.

Lemma filter_all {A} (p : A -> bool) l :
  (forall x, In x l -> p x = true) -> List.filter p l = l.
Proof.
  induction l as [| x l IH]; simpl; intros H; [reflexivity |].
  rewrite (H x) by now left. f_equal. apply IH. intros y Hy. apply H. now right.
Qed.

Lemma Forall2_map_right {A B} (P : A -> B -> Prop) (g : A -> B) l :
  (forall x, In x l -> P x (g x)) -> Forall2 P l (map g l).
Proof.
  induction l as [| x l IH]; simpl; intros H; constructor.
  - apply H. now left.
  - apply IH. intros y Hy. apply H. now right.
Qed.

Lemma Forall2_In_right {A B} (P : A -> B -> Prop) l l' y :
  Forall2 P l l' -> In y l' -> exists x, In x l /\ P x y.
Proof.
  induction 1 as [| x y' l l' Hxy _ IH]; simpl; [intros [] |].
  intros [<- | Hin].
  - exists x. auto.
  - destruct (IH Hin) as (x' & Hx' & HP). exists x'. auto.
Qed.

Lemma Forall2_In_left {A B} (P : A -> B -> Prop) l l' x :
  Forall2 P l l' -> In x l -> exists y, In y l' /\ P x y.
Proof.
  induction 1 as [| x' y l l' Hxy _ IH]; simpl; [intros [] |].
  intros [<- | Hin].
  - exists y. auto.
  - destruct (IH Hin) as (y' & Hy' & HP). exists y'. auto.
Qed.

Lemma Forall2_filter {A B} (P : A -> B -> Prop) p q l l' :
  Forall2 P l l' ->
  (forall x y, P x y -> p x = q y) ->
  Forall2 P (List.filter p l) (List.filter q l').
Proof.
  intros H Hpq. induction H as [| x y l l' Hxy _ IH]; simpl; [constructor |].
  rewrite (Hpq x y Hxy). destruct (q y); [constructor |]; assumption.
Qed.

Lemma cell_at_restrict (cols : list string) (r : gmap string cell) c :
  In c cols ->
  cell_at c (filter (fun kv => fst kv ∈ cols) r) = cell_at c r.
Proof.
  intros Hin. unfold cell_at.
  destruct (r !! c) as [v |] eqn:Hr.
  - erewrite map_lookup_filter_Some_2; [reflexivity | eassumption |].
    simpl. now apply list_elem_of_In.
  - rewrite map_lookup_filter_None_2; [reflexivity | now left].
Qed.

Lemma select_Return cols f f' :
  select cols f = Return f' ->
  labels f' = cols
  /\ rows f' = map (fun r => filter (fun kv => fst kv ∈ cols) r) (rows f).
Proof.
  unfold select. destruct (find _ cols); [discriminate |].
  intros [= <-]. unfold labels. simpl. split; [| reflexivity].
  rewrite map_map. simpl. apply map_id.
Qed.

(** What lines 123-134 compute: the labels of the daily table, and one row
    per group key holding the key, the means and the first values. *)
Lemma daily_averages_with_Return average dated daily :
  daily_averages_with average dated = Return daily ->
  labels daily = ["date"%string] ++ existing_meta dated ++ numeric_cols dated
  /\ Forall2
       (fun k o =>
          cell_at "date" o = Time k
          /\ (forall c, In c (numeric_cols dated) -> c <> "date"%string ->
                        cell_at c o
                        = mean_with average
                            (map (cell_at c) (group k (rows dated))))
          /\ (forall c, In c (existing_meta dated) ->
                        cell_at c o = first (map (cell_at c) (group k (rows dated)))))
       (group_keys (rows dated)) (rows daily).
Proof.
  unfold daily_averages_with. intros H.
  apply rbind_Return in H. destruct H as (g & Hg & Hsel).
  unfold groupby_date_agg_with in Hg.
  destruct (negb (has_column "date" dated)); [discriminate |].
  destruct (agg_map dated) as [| ch m] eqn:Hm; [discriminate |].
  rewrite <- Hm in Hg. injection Hg as <-.
  rewrite filter_all in Hsel.
  2:{ intros c Hc. unfold has_column. apply mem_In.
      unfold labels. simpl. right. rewrite map_map. simpl.
      change (In c (map fst (agg_map dated))).
      rewrite agg_map_labels. apply in_app_iff. now left. }
  apply select_Return in Hsel. destruct Hsel as [Hl Hr]. simpl in Hr.
  split; [exact Hl |].
  rewrite Hr, map_map. apply Forall2_map_right. intros k _.
  split; [| split].
  - rewrite cell_at_restrict by now left. apply agg_row_date.
  - intros c Hc Hne. rewrite cell_at_restrict.
    + now apply agg_row_numeric.
    + right. apply in_app_iff. now right.
  - intros c Hc. rewrite cell_at_restrict.
    + now apply agg_row_meta.
    + right. apply in_app_iff. now left.
Qed.

Lemma daily_averages_Return dated daily :
  daily_averages dated = Return daily ->
  labels daily = ["date"%string] ++ existing_meta dated ++ numeric_cols dated
  /\ Forall2
       (fun k o =>
          cell_at "date" o = Time k
          /\ (forall c, In c (numeric_cols dated) -> c <> "date"%string ->
                        cell_at c o = mean (map (cell_at c) (group k (rows dated))))
          /\ (forall c, In c (existing_meta dated) ->
                        cell_at c o = first (map (cell_at c) (group k (rows dated)))))
       (group_keys (rows dated)) (rows daily).
Proof. apply daily_averages_with_Return. Qed.

(** *** The two reductions in the words of the specification *)

Lemma present_numeric_values vals :
  Spec.present vals = numeric_values vals.
Proof.
  unfold numeric_values.
  induction vals as [| [q | s | t |] vals IH]; simpl; congruence.
Qed.

Lemma fold_left_Qplus xs a : (fold_left Qplus xs a == a + Qsum xs)%Q.
Proof.
  revert a. induction xs as [| x xs IH]; simpl; intros a.
  - ring.
  - rewrite IH. ring.
Qed.

Lemma mean_is_arithmetic_mean vals :
  Spec.same_value (mean vals) (Spec.mean_cell vals).
Proof.
  unfold mean, mean_with, exact_average, Spec.mean_cell, Spec.arithmetic_mean.
  rewrite present_numeric_values.
  destruct (numeric_values vals) as [| x xs]; simpl; [reflexivity |].
  rewrite fold_left_Qplus. apply Qdiv_comp; [ring | reflexivity].
Qed.



End DailyTable.

(** ** From the kept readings to the daily rows *)

Section Daily.

Lemma set_dtype_In_other c d cols c' d' :
  In (c', d') (set_dtype c d cols) -> c' <> c -> In (c', d') cols.
Proof.
  unfold set_dtype. destruct (mem c (map fst cols)).
  - rewrite in_map_iff. intros ((c0, d0) & Heq & Hin) Hne. simpl in Heq.
    destruct (String.eqb c c0); [congruence |].
    now injection Heq as <- <-.
  - rewrite in_app_iff. intros [Hin | [Heq | []]] Hne; congruence.
Qed.

(** Each kept reading receives its own day at the requested clock time. *)
Lemma add_date_rows timeutc target_hour target_minute f dated :
  parse_timeutc timeutc = Return (target_hour, target_minute) ->
  add_date timeutc (filter_window target_hour target_minute f) = Return dated ->
  Forall2
    (fun r r' => exists t,
         cell_at "endDateTime" r = Time t
         /\ r' = <["date"%string := Time (Spec.day_at t target_hour target_minute)]> r)
    (rows (filter_window target_hour target_minute f)) (rows dated).
Proof.
  intros Hp H. apply add_date_assign, assign_Return in H. destruct H as [_ H].
  assert (Hw : forall r, In r (rows (filter_window target_hour target_minute f)) ->
                         in_window target_hour target_minute r = true).
  { intros r Hr. now apply filter_window_rows in Hr. }
  induction H as [| r r' l l' (v & Hv & ->) _ IH]; constructor.
  - specialize (Hw r (or_introl eq_refl)). unfold in_window in Hw.
    unfold synthetic_date in Hv.
    destruct (cell_at "endDateTime" r) as [q | s | t |]; try discriminate.
    exists t. split; [reflexivity |].
    apply rbind_Return in Hv. destruct Hv as (d & Hd & [= <-]).
    now rewrite (at_requested_time_day_at _ _ _ _ _ Hp Hd).
  - apply IH. intros r0 Hr0. apply Hw. now right.
Qed.

Lemma day_at_key t0 t target_hour target_minute :
  ((year t0 =? year t) && (month t0 =? month t) && (day t0 =? day t))%bool
  = bool_decide (Spec.day_at t0 target_hour target_minute
                 = Spec.day_at t target_hour target_minute).
Proof.
  unfold Spec.day_at.
  destruct (Z.eqb_spec (year t0) (year t)) as [Hy | Hy];
    destruct (Z.eqb_spec (month t0) (month t)) as [Hm | Hm];
    destruct (Z.eqb_spec (day t0) (day t)) as [Hd | Hd]; simpl;
    symmetry;
    first [ apply bool_decide_eq_true; congruence
          | apply bool_decide_eq_false; congruence ].
Qed.

Lemma mean_single v :
  Spec.is_numeric_cell v = true -> Spec.same_value (mean [v]) v.
Proof.
  destruct v as [q | s | t |]; simpl; try discriminate; intros _.
  - unfold mean, mean_with, exact_average. simpl. field.
  - reflexivity.
Qed.

Lemma first_single v : first [v] = v.
Proof. now destruct v. Qed.

Lemma Forall2_map_eq {A B C} (P : A -> B -> Prop) (g : B -> C) (h : A -> C) l l' :
  Forall2 P l l' -> (forall x y, P x y -> g y = h x) -> map g l' = map h l.
Proof.
  intros H Hgh. induction H as [| x y l l' Hxy _ IH]; simpl; [reflexivity |].
  now rewrite (Hgh x y Hxy), IH.
Qed.



(** C8. When exactly one kept reading falls on a day, the row of that day
    exists and repeats the reading: its numeric columns hold the reading's
    values and its metadata columns the reading's metadata. *)
Theorem C8_single_reading_day_is_unchanged
    timeutc target_hour target_minute f dated daily r t :
  parse_timeutc timeutc = Return (target_hour, target_minute) ->
  add_date timeutc (filter_window target_hour target_minute f) = Return dated ->
  daily_averages dated = Return daily ->
  Spec.well_typed f ->
  cell_at "endDateTime" r = Time t ->
  List.filter (Spec.on_day t) (rows (filter_window target_hour target_minute f))
  = [r] ->
  (exists o, In o (rows daily)
             /\ cell_at "date" o = Time (Spec.day_at t target_hour target_minute))
  /\ (forall o,
         In o (rows daily) ->
         cell_at "date" o = Time (Spec.day_at t target_hour target_minute) ->
         (forall c, In c (numeric_cols dated) ->
                    Spec.same_value (cell_at c o) (cell_at c r))
         /\ (forall c, In c (existing_meta dated) ->
                       cell_at c o = cell_at c r)).
Proof.
  intros Hp Hd Ha Hwt Ht Hone.
  set (k := Spec.day_at t target_hour target_minute).
  pose proof (add_date_rows _ _ _ _ _ Hp Hd) as HF.
  destruct (add_date_columns _ _ _ Hd) as (_ & Hnum & Hmeta).
  assert (Hcols : columns dated = set_dtype "date" Datetime (columns f)).
  { pose proof (add_date_filter_window _ _ _ _ _ Hd) as Hfw.
    apply add_date_assign, assign_Return in Hd. destruct Hd as [Hc _].
    now rewrite Hfw in Hc. }
  apply daily_averages_Return in Ha. destruct Ha as [_ Hrows].
  assert (Hg : group k (rows dated) = [<["date"%string := Time k]> r]).
  { unfold group.
    assert (HFf : Forall2
              (fun r r' => exists t,
                   cell_at "endDateTime" r = Time t
                   /\ r' = <["date"%string := Time (Spec.day_at t target_hour target_minute)]> r)
              (List.filter (Spec.on_day t)
                 (rows (filter_window target_hour target_minute f)))
              (List.filter (has_key k) (rows dated))).
    { apply Forall2_filter; [exact HF |].
      intros x y (t0 & Ht0 & ->). unfold Spec.on_day, has_key.
      rewrite Ht0, cell_at_insert. apply day_at_key. }
    rewrite Hone in HFf.
    inversion HFf as [| x y l l' (t' & Ht' & Hy) Hnil]; subst.
    inversion Hnil; subst. rewrite Ht in Ht'. injection Ht' as <-.
    reflexivity. }
  assert (Hr : In r (rows f)).
  { assert (H : In r (List.filter (Spec.on_day t)
                        (rows (filter_window target_hour target_minute f)))).
    { rewrite Hone. now left. }
    apply filter_In in H. destruct H as [H _].
    apply filter_window_rows in H. tauto. }
  assert (Hk : In k (group_keys (rows dated))).
  { apply group_keys_In. exists (<["date"%string := Time k]> r). split.
    - assert (H : In (<["date"%string := Time k]> r) (group k (rows dated))).
      { rewrite Hg. now left. }
      apply group_In in H. tauto.
    - apply cell_at_insert. }
  split.
  - destruct (Forall2_In_left _ _ _ _ Hrows Hk) as (o & Ho & Hdate & _).
    exists o. auto.
  - intros o Ho Hdate.
    destruct (Forall2_In_right _ _ _ _ Hrows Ho) as (k' & _ & Hk' & Hmean & Hfirst).
    assert (k' = k) by congruence. subst k'.
    rewrite Hg in Hmean, Hfirst. simpl in Hmean, Hfirst. split.
    + intros c Hc.
      assert (Hne : c <> "date"%string) by (intros ->; contradiction).
      rewrite (Hmean c Hc Hne), cell_at_insert_ne by congruence.
      apply mean_single. apply Hwt; [exact Hr |].
      apply numeric_cols_In in Hc. destruct Hc as [Hc _].
      rewrite Hcols in Hc. simpl in Hc.
      now apply set_dtype_In_other in Hc.
    + intros c Hc.
      assert (Hne : c <> "date"%string) by (intros ->; contradiction).
      rewrite (Hfirst c Hc), cell_at_insert_ne by congruence.
      apply first_single.
Qed.

End Daily.

(** ** The daily table on sample data *)

Section DailySamples.




Lemma C8_single_reading_day_witness :
  exists o, In o (rows (Examples.daily Examples.waq_one))
            /\ cell_at "date" o = Time (mkTimestamp 2024 3 9 16 0 0)
            /\ Spec.same_value (cell_at "pH" o) (Num (73 # 10))
            /\ cell_at "release" o = Str "RELEASE-2026".
Proof.
  destruct (C8_single_reading_day_is_unchanged "16:00" 16 0 Examples.waq_one
              (Examples.dated Examples.waq_one) (Examples.daily Examples.waq_one)
              (Examples.reading (Examples.on 9 16 3 0) "110" (Num (73 # 10))
                 (Str "RELEASE-2026"))
              (Examples.on 9 16 3 0))
    as [(o & Hin & Hdate) Hall];
    [ reflexivity | reflexivity | reflexivity
    | | reflexivity | vm_compute; reflexivity | ].
  - intros r c Hr Hc. simpl in Hr, Hc.
    destruct Hr as [<- | [<- | [<- | []]]];
      destruct Hc as [[=] | [[=] | [[= <-] | [[=] | []]]]]; reflexivity.
  - destruct (Hall o Hin Hdate) as [Hnum Hmeta].
    exists o. split; [exact Hin |]. split; [exact Hdate |]. split.
    + apply (Hnum "pH"%string). left. reflexivity.
    + apply (Hmeta "release"%string). right. left. reflexivity.
Defined.

End DailySamples.

(** ** Texts and paths *)

Section Texts.

Lemma lower_append a b :
  Text.lower (a +:+ b) = Text.lower a +:+ Text.lower b.
Proof. induction a as [| x a IH]; simpl; [reflexivity | now rewrite IH]. Qed.

Lemma prefix_refl s : String.prefix s s = true.
Proof.
  induction s as [| a s IH]; simpl; [reflexivity |].
  destruct (ascii_dec a a); [assumption | contradiction].
Qed.

Lemma prefix_append s t : String.prefix s (s +:+ t) = true.
Proof.
  induction s as [| a s IH]; simpl; [now destruct t |].
  destruct (ascii_dec a a); [assumption | contradiction].
Qed.

Lemma contains_append p s t : Text.contains s (p +:+ s +:+ t) = true.
Proof.
  induction p as [| a p IH].
  - change (Text.contains s (s +:+ t) = true).
    destruct s as [| x s]; [now destruct t |].
    simpl. destruct (ascii_dec x x); [| contradiction].
    now rewrite prefix_append.
  - simpl.
    match goal with |- (if ?b then _ else _) = _ => destruct b end;
      [reflexivity | exact IH].
Qed.

Lemma append_inv_head a x y : a +:+ x = a +:+ y -> x = y.
Proof.
  induction a as [| c a IH]; simpl; [trivial |].
  intros [= H]. auto.
Qed.

(** The four files of a site are distinct. *)
Lemma paths_20288_00130 savepath siteid :
  let c2 := savepath +:+ siteid +:+ "_citation_" +:+ "20288" +:+ ".txt" in
  let d2 := savepath +:+ siteid +:+ "_daily_20288.csv" in
  let c0 := savepath +:+ siteid +:+ "_citation_" +:+ "00130" +:+ ".txt" in
  let d0 := savepath +:+ siteid +:+ "_daily_00130.csv" in
  ~ In c0 [c2; d2] /\ ~ In d0 [c2; d2] /\ ~ In c2 [c0; d0] /\ ~ In d2 [c0; d0].
Proof.
  simpl. repeat split; intros [H | [H | []]];
    apply append_inv_head, append_inv_head in H; discriminate H.
Qed.

End Texts.

(** ** The citation file *)

Section Citation.

Lemma join_nil sep : join sep [] = ""%string.
Proof. reflexivity. Qed.


End Citation.

(** ** What a computation may change *)

Section Effects.

Lemma changes_only_refl paths w : Spec.changes_only paths w w.
Proof. unfold Spec.changes_only. auto. Qed.

Lemma changes_only_trans paths w1 w2 w3 :
  Spec.changes_only paths w1 w2 -> Spec.changes_only paths w2 w3 ->
  Spec.changes_only paths w1 w3.
Proof.
  intros (Hs & Hr & Hf) (Hs' & Hr' & Hf'). repeat split; try congruence.
  intros p Hp. now rewrite Hf', Hf.
Qed.

Lemma confined_ret {A} paths (a : A) : Spec.confined paths (ret a).
Proof. intros w. apply changes_only_refl. Qed.

Lemma confined_lift {A} paths (r : Result A) : Spec.confined paths (lift r).
Proof. intros w. apply changes_only_refl. Qed.

Lemma confined_bind {A B} paths (c : M A) (k : A -> M B) :
  Spec.confined paths c -> (forall a, Spec.confined paths (k a)) ->
  Spec.confined paths (bind c k).
Proof.
  intros Hc Hk w. unfold bind. specialize (Hc w).
  destruct (c w) as [[a | e] w1]; simpl in *; [| exact Hc].
  eapply changes_only_trans; [exact Hc | apply Hk].
Qed.

Lemma confined_write_file E paths path content :
  In path paths -> Spec.confined paths (write_file E path content).
Proof.
  intros Hin w. unfold write_file.
  destruct (open_error E path); simpl; [apply changes_only_refl |].
  repeat split; simpl; auto.
  intros p Hp. apply lookup_insert_ne. intros ->. contradiction.
Qed.

Lemma confined_write_citation E paths dpnum siteid data savepath :
  In (savepath +:+ siteid +:+ "_citation_" +:+ dpnum +:+ ".txt") paths ->
  Spec.confined paths (write_citation E dpnum siteid data savepath).
Proof. intros H. unfold write_citation. now apply confined_write_file. Qed.

Lemma confined_summarize_water_quality E savepath siteid timeutc th tm data :
  Spec.confined
    [savepath +:+ siteid +:+ "_citation_" +:+ "20288" +:+ ".txt";
     savepath +:+ siteid +:+ "_daily_20288.csv"]
    (summarize_water_quality E savepath siteid timeutc th tm data).
Proof.
  unfold summarize_water_quality.
  apply confined_bind; [apply confined_write_citation; now left |]. intros _.
  apply confined_bind; [apply confined_lift |]. intros v.
  apply confined_bind; [apply confined_lift |]. intros f.
  apply confined_bind; [apply confined_lift |]. intros daily.
  apply confined_write_file. right. now left.
Qed.

Lemma confined_summarize_discharge E savepath siteid th tm data :
  Spec.confined
    [savepath +:+ siteid +:+ "_citation_" +:+ "00130" +:+ ".txt";
     savepath +:+ siteid +:+ "_daily_00130.csv"]
    (summarize_discharge E savepath siteid th tm data).
Proof.
  unfold summarize_discharge.
  apply confined_bind; [apply confined_write_citation; now left |]. intros _.
  apply confined_bind; [apply confined_lift |]. intros v.
  apply confined_bind; [apply confined_lift |]. intros f.
  apply confined_bind; [apply confined_lift |]. intros kept.
  apply confined_write_file. right. now left.
Qed.

(** The first [try] body makes one request, for the water-quality product,
    prints nothing and touches no file but its own two. *)
Lemma water_quality_world E savepath siteid sm em timeutc th tm w :
  let w' := snd (water_quality E savepath siteid sm em timeutc th tm w) in
  stdout w' = stdout w
  /\ requests w' = requests w ++ [query E "DP1.20288.001" siteid sm em]
  /\ forall p,
       ~ In p [savepath +:+ siteid +:+ "_citation_" +:+ "20288" +:+ ".txt";
               savepath +:+ siteid +:+ "_daily_20288.csv"] ->
       fs w' !! p = fs w !! p.
Proof.
  unfold water_quality, bind, download.
  destruct (load_by_product E _) as [[data |] | e]; simpl; auto.
  destruct (confined_summarize_water_quality E savepath siteid timeutc th tm data
              (requested (query E "DP1.20288.001" siteid sm em) w))
    as (Hs & Hr & Hf).
  simpl in *. auto.
Qed.

(** The second [try] body likewise, for the discharge product. *)
Lemma discharge_world E savepath siteid sm em th tm w :
  let w' := snd (discharge E savepath siteid sm em th tm w) in
  stdout w' = stdout w
  /\ requests w' = requests w ++ [query E "DP4.00130.001" siteid sm em]
  /\ forall p,
       ~ In p [savepath +:+ siteid +:+ "_citation_" +:+ "00130" +:+ ".txt";
               savepath +:+ siteid +:+ "_daily_00130.csv"] ->
       fs w' !! p = fs w !! p.
Proof.
  unfold discharge, bind, download.
  destruct (load_by_product E _) as [[data |] | e]; simpl; auto.
  destruct (confined_summarize_discharge E savepath siteid th tm data
              (requested (query E "DP4.00130.001" siteid sm em) w))
    as (Hs & Hr & Hf).
  simpl in *. auto.
Qed.

(** How a call ends once the target time is read and the first [try] body
    is over. *)
Lemma neon_dwnld_sum_daily_unfold E savepath siteid sm em timeutc th tm w :
  parse_timeutc timeutc = Return (th, tm) ->
  neon_dwnld_sum_daily E savepath siteid sm em timeutc w
  = match water_quality E savepath siteid sm em timeutc th tm w with
    | (Raise e, w1) => (Return ReturnedEarly, logged (error_downloading E e) w1)
    | (Return _, w1) =>
        match discharge E savepath siteid sm em th tm w1 with
        | (Raise e, w2) => (Return ReturnedEarly, logged (error_downloading E e) w2)
        | (Return _, w2) => (Return Finished, logged both_saved w2)
        end
    end.
Proof.
  intros Hp. unfold neon_dwnld_sum_daily, bind at 1, lift. rewrite Hp. simpl.
  unfold bind at 1, try_except at 1, bind at 1.
  destruct (water_quality E savepath siteid sm em timeutc th tm w)
    as [[[] | e] w1]; simpl.
  - unfold bind at 1, try_except at 1, bind at 1.
    destruct (discharge E savepath siteid sm em th tm w1) as [[[] | e] w2];
      reflexivity.
  - reflexivity.
Qed.

End Effects.

(** ** The failure boundaries of the Summarizer *)

Section Boundaries.

Lemma contains_suffix p s : Text.contains s (p +:+ s) = true.
Proof.
  induction p as [| a p IH]; simpl.
  - destruct s as [| x s]; [reflexivity |]. simpl.
    destruct (ascii_dec x x); [| contradiction]. now rewrite prefix_refl.
  - match goal with |- (if ?b then _ else _) = _ => destruct b end;
      [reflexivity | exact IH].
Qed.

(** C5. When the body of the first [try] raises, the call prints "Error
    downloading data: " followed by the text of the exception and returns
    at once: the discharge product is not requested and its two files are
    left as they were. *)
Theorem C5_water_quality_failure_skips_discharge
    (E : Env) (savepath siteid sm em timeutc : string) (th tm : Z)
    (w w' : World) (e : exn) :
  parse_timeutc timeutc = Return (th, tm) ->
  water_quality E savepath siteid sm em timeutc th tm w = (Raise e, w') ->
  neon_dwnld_sum_daily E savepath siteid sm em timeutc w
  = (Return ReturnedEarly, logged (error_downloading E e) w')
  /\ Text.contains (str_exn E e) (error_downloading E e) = true
  /\ stdout (logged (error_downloading E e) w')
     = stdout w ++ [error_downloading E e]
  /\ requests (logged (error_downloading E e) w')
     = requests w ++ [query E "DP1.20288.001" siteid sm em]
  /\ fs (logged (error_downloading E e) w') !! daily_path savepath siteid "00130"
     = fs w !! daily_path savepath siteid "00130"
  /\ fs (logged (error_downloading E e) w') !! citation_path savepath siteid "00130"
     = fs w !! citation_path savepath siteid "00130".
Proof.
  intros Hp Hwq.
  pose proof (water_quality_world E savepath siteid sm em timeutc th tm w) as Hw.
  rewrite Hwq in Hw. simpl in Hw. destruct Hw as (Hs & Hr & Hf).
  destruct (paths_20288_00130 savepath siteid) as (Hc0 & Hd0 & _).
  split.
  - rewrite (neon_dwnld_sum_daily_unfold _ _ _ _ _ _ _ _ _ Hp), Hwq. reflexivity.
  - split; [apply contains_suffix |].
    split; [simpl; now rewrite Hs |].
    split; [exact Hr |].
    split; [exact (Hf _ Hd0) | exact (Hf _ Hc0)].
Qed.

(** C9. When the water-quality download returns something that is not a
    bundle, the first [try] body ends normally having written and printed
    nothing, and the call goes on to request and process the discharge
    product: it ends as the second [try] ends. *)
Theorem C9_non_bundle_water_quality_goes_on_to_discharge
    (E : Env) (savepath siteid sm em timeutc : string) (th tm : Z) (w : World) :
  parse_timeutc timeutc = Return (th, tm) ->
  load_by_product E (query E "DP1.20288.001" siteid sm em) = Return PyOther ->
  let w1 := requested (query E "DP1.20288.001" siteid sm em) w in
  let final := snd (neon_dwnld_sum_daily E savepath siteid sm em timeutc w) in
  water_quality E savepath siteid sm em timeutc th tm w = (Return tt, w1)
  /\ neon_dwnld_sum_daily E savepath siteid sm em timeutc w
     = match discharge E savepath siteid sm em th tm w1 with
       | (Raise e, w2) => (Return ReturnedEarly, logged (error_downloading E e) w2)
       | (Return _, w2) => (Return Finished, logged both_saved w2)
       end
  /\ requests final
     = requests w ++ [query E "DP1.20288.001" siteid sm em;
                      query E "DP4.00130.001" siteid sm em]
  /\ fs final !! citation_path savepath siteid "20288"
     = fs w !! citation_path savepath siteid "20288"
  /\ fs final !! daily_path savepath siteid "20288"
     = fs w !! daily_path savepath siteid "20288"
  /\ (stdout final = stdout w ++ [both_saved]
      \/ exists e, fst (discharge E savepath siteid sm em th tm w1) = Raise e
                   /\ stdout final = stdout w ++ [error_downloading E e]).
Proof.
  intros Hp Hload w1 final.
  assert (Hwq : water_quality E savepath siteid sm em timeutc th tm w
                = (Return tt, w1)).
  { unfold water_quality, bind, download. now rewrite Hload. }
  assert (Hn : neon_dwnld_sum_daily E savepath siteid sm em timeutc w
               = match discharge E savepath siteid sm em th tm w1 with
                 | (Raise e, w2) =>
                     (Return ReturnedEarly, logged (error_downloading E e) w2)
                 | (Return _, w2) => (Return Finished, logged both_saved w2)
                 end).
  { rewrite (neon_dwnld_sum_daily_unfold _ _ _ _ _ _ _ _ _ Hp), Hwq. reflexivity. }
  split; [exact Hwq |]. split; [exact Hn |].
  pose proof (discharge_world E savepath siteid sm em th tm w1) as Hd.
  destruct (paths_20288_00130 savepath siteid) as (_ & _ & Hc2 & Hd2).
  unfold final. rewrite Hn.
  destruct (discharge E savepath siteid sm em th tm w1) as [[[] | e] w2];
    simpl in *; destruct Hd as (Hs & Hr & Hf);
    (split; [rewrite Hr; now rewrite <- app_assoc |]);
    (split; [exact (Hf _ Hc2) |]);
    (split; [exact (Hf _ Hd2) |]).
  - left. now rewrite Hs.
  - right. exists e. split; [reflexivity | now rewrite Hs].
Qed.

Lemma parse_timeutc_cases timeutc :
  (exists a b, parse_timeutc timeutc = Return (a, b)
               /\ Spec.two_integers timeutc a b)
  \/ (exists e, parse_timeutc timeutc = Raise e).
Proof.
  unfold parse_timeutc, Spec.two_integers.
  destruct (Text.split ":" timeutc) as [| h [| m [| x l]]].
  - right. eauto.
  - right. destruct (Text.py_int h); simpl; eauto.
  - destruct (Text.py_int h) as [a | e] eqn:Hh; simpl; [| right; eauto].
    destruct (Text.py_int m) as [b | e] eqn:Hm; simpl; [| right; eauto].
    left. exists a, b. split; [reflexivity |]. exists h, m. auto.
  - right. destruct (Text.py_int h); simpl; eauto.
    destruct (Text.py_int m); simpl; eauto.
    destruct (Text.py_int x); simpl; eauto.
Qed.

Lemma process_site_unfold E siteid params w :
  process_site E (siteid, params) w
  = match neon_dwnld_sum_daily E main_savepath siteid
            (startmonth params) (endmonth params) (timeutc params)
            (logged (processing_site E siteid params) w) with
    | (Return _, w1) => (Return tt, w1)
    | (Raise e, w1) => (Return tt, logged (error_processing E siteid e) w1)
    end.
Proof.
  unfold process_site, try_except, bind at 1, print. simpl.
  unfold bind at 1.
  destruct (neon_dwnld_sum_daily _ _ _ _ _ _ _) as [[o | e] w1]; reflexivity.
Qed.

(** C10. A [timeutc] that does not read as two integers separated by a
    colon makes the call raise before either [try]: the world is as it
    was, with no request, no file and no line printed; in the driver the
    exception ends in the handler of the site, which prints it. *)
Theorem C10_unreadable_timeutc_raises_before_both_pipelines
    (E : Env) (savepath siteid sm em timeutc : string) (w : World) :
  (forall a b, ~ Spec.two_integers timeutc a b) ->
  exists e,
    parse_timeutc timeutc = Raise e
    /\ neon_dwnld_sum_daily E savepath siteid sm em timeutc w = (Raise e, w)
    /\ forall sid params w0,
         Script.timeutc params = timeutc ->
         process_site E (sid, params) w0
         = (Return tt,
            logged (error_processing E sid e)
                   (logged (processing_site E sid params) w0)).
Proof.
  intros Hno.
  destruct (parse_timeutc_cases timeutc) as [(a & b & _ & H2) | (e & He)].
  - exfalso. exact (Hno a b H2).
  - exists e. split; [exact He |].
    assert (Hn : forall sp s m1 m2 w0,
               neon_dwnld_sum_daily E sp s m1 m2 timeutc w0 = (Raise e, w0)).
    { intros. unfold neon_dwnld_sum_daily, bind at 1, lift. now rewrite He. }
    split; [apply Hn |].
    intros sid params w0 Ht. rewrite process_site_unfold, Ht, Hn. reflexivity.
Qed.

End Boundaries.

(** ** The discharge table *)

Section Discharge.

Lemma bind_Return {A B} (c : M A) (k : A -> M B) w a w' :
  c w = (Return a, w') -> bind c k w = k a w'.
Proof. intros H. unfold bind. now rewrite H. Qed.

Lemma write_file_ok E path content w :
  open_error E path = None ->
  write_file E path content w = (Return tt, written path content w).
Proof. intros H. unfold write_file. now rewrite H. Qed.

Lemma set_dtype_labels c d cols :
  mem c (map fst cols) = true ->
  map fst (set_dtype c d cols) = map fst cols.
Proof.
  intros H. unfold set_dtype. rewrite H, map_map.
  apply map_ext. intros [c' d']. simpl.
  destruct (String.eqb c c') eqn:Heq; [| reflexivity].
  apply String.eqb_eq in Heq. now subst.
Qed.

Lemma convert_endDateTime_Return parse f f' :
  convert_endDateTime parse f = Return f' ->
  labels f' = labels f
  /\ Forall2
       (fun r r' => exists v,
            to_datetime_cell parse (cell_at "endDateTime" r) = Return v
            /\ r' = <["endDateTime"%string := v]> r)
       (rows f) (rows f').
Proof.
  unfold convert_endDateTime.
  destruct (has_column "endDateTime" f) eqn:Hc; [| discriminate].
  intros H. apply assign_Return in H. destruct H as [Hcols Hrows].
  split; [| exact Hrows].
  unfold labels. rewrite Hcols. now apply set_dtype_labels.
Qed.

Lemma at_target_iff target_hour target_minute r :
  at_target target_hour target_minute r = true
  <-> exists t, cell_at "endDateTime" r = Time t
                /\ hour t = target_hour /\ minute t = target_minute.
Proof.
  unfold at_target. split.
  - destruct (cell_at "endDateTime" r) as [q | s | t |]; try discriminate.
    rewrite andb_true_iff, !Z.eqb_eq. eauto.
  - intros (t & -> & Hh & Hm). rewrite andb_true_iff, !Z.eqb_eq. auto.
Qed.

(** C4. The discharge rows kept are those whose timestamp has the target
    hour and the target minute; they are rows of the table, under its
    columns, and their text is what the file
    [{savepath}{siteid}_daily_00130.csv] receives. A row at 15:59 is dropped
    and a row at 16:00 is kept when the target is 16:00. *)
Theorem C4_discharge_exact_match
    (E : Env) (savepath siteid sm em : string) (target_hour target_minute : Z)
    (w : World) (data : list (string * value)) (csd csd' : Frame) :
  load_by_product E (query E "DP4.00130.001" siteid sm em) = Return (PyDict data) ->
  open_error E (citation_path savepath siteid "00130") = None ->
  getitem "csd_15_min" data = Return (Table csd) ->
  convert_endDateTime (parse_datetime E) csd = Return csd' ->
  open_error E (daily_path savepath siteid "00130") = None ->
  let kept := where_ (at_target target_hour target_minute) csd' in
  (forall r, In r (rows kept)
             <-> In r (rows csd')
                 /\ exists t, cell_at "endDateTime" r = Time t
                              /\ hour t = target_hour
                              /\ minute t = target_minute)
  /\ columns kept = columns csd'
  /\ labels kept = labels csd
  /\ Forall2
       (fun r r' => exists v,
            to_datetime_cell (parse_datetime E) (cell_at "endDateTime" r) = Return v
            /\ r' = <["endDateTime"%string := v]> r)
       (rows csd) (rows csd')
  /\ discharge E savepath siteid sm em target_hour target_minute w
     = (Return tt,
        written (daily_path savepath siteid "00130") (to_csv E kept)
          (snd (write_citation E "00130" siteid data savepath
                  (requested (query E "DP4.00130.001" siteid sm em) w))))
  /\ (forall r t, cell_at "endDateTime" r = Time t ->
                  hour t = 15 -> minute t = 59 -> at_target 16 0 r = false)
  /\ (forall r t, cell_at "endDateTime" r = Time t ->
                  hour t = 16 -> minute t = 0 -> at_target 16 0 r = true).
Proof.
  intros Hload Hcit Hget Hconv Hcsv kept.
  destruct (convert_endDateTime_Return _ _ _ Hconv) as [Hlab Hrows].
  split.
  { intros r. unfold kept, where_. simpl.
    now rewrite filter_In, at_target_iff. }
  split; [reflexivity |]. split; [exact Hlab |]. split; [exact Hrows |].
  split.
  { unfold discharge.
    erewrite bind_Return by (unfold download; rewrite Hload; reflexivity).
    unfold summarize_discharge.
    erewrite bind_Return
      by (unfold write_citation; apply write_file_ok; exact Hcit).
    erewrite bind_Return by (unfold lift; rewrite Hget; reflexivity).
    erewrite bind_Return by (unfold lift; reflexivity).
    erewrite bind_Return
      by (unfold lift, subset_csd; rewrite Hconv; reflexivity).
    rewrite write_file_ok by exact Hcsv.
    unfold write_citation. rewrite write_file_ok by exact Hcit.
    reflexivity. }
  split.
  - intros r t Ht Hh Hm. unfold at_target. rewrite Ht, Hh. reflexivity.
  - intros r t Ht Hh Hm. unfold at_target. rewrite Ht, Hh, Hm. reflexivity.
Qed.

End Discharge.

(** ** The water-quality file *)

Section WaterQualityFile.

(** The stages of lines 88-134 when they all succeed. *)
Lemma summarize_waq_stages parse timeutc target_hour target_minute f daily :
  summarize_waq parse timeutc target_hour target_minute f = Return daily ->
  exists waq waq' dated,
    subset_s2 f = Return waq
    /\ convert_endDateTime parse waq = Return waq'
    /\ add_date timeutc (filter_window target_hour target_minute waq') = Return dated
    /\ daily_averages dated = Return daily.
Proof.
  unfold summarize_waq. intros H.
  apply rbind_Return in H. destruct H as (waq & H1 & H).
  apply rbind_Return in H. destruct H as (waq' & H2 & H).
  apply rbind_Return in H. destruct H as (dated & H3 & H).
  exists waq, waq', dated. auto.
Qed.

(** Line 88 keeps the readings of the four sensor positions. *)
Lemma subset_s2_rows f waq r :
  subset_s2 f = Return waq ->
  In r (rows waq)
  <-> In r (rows f)
      /\ exists s, cell_at "horizontalPosition" r = Str s /\ In s s2locs.
Proof.
  unfold subset_s2. destruct (has_column "horizontalPosition" f); [| discriminate].
  intros [= <-]. unfold where_. cbn [rows]. rewrite filter_In. unfold isin.
  split.
  - intros [Hin Hs].
    destruct (cell_at "horizontalPosition" r) as [q | s | t |]; try discriminate.
    split; [exact Hin |]. exists s. split; [reflexivity |].
    apply mem_In. exact Hs.
  - intros [Hin (s & -> & Hs)]. split; [exact Hin |].
    apply mem_In. exact Hs.
Qed.


End WaterQualityFile.

(** ** The site driver *)

Section Driver.

Lemma water_quality_sites_app qs qs' :
  Spec.water_quality_sites (qs ++ qs')
  = Spec.water_quality_sites qs ++ Spec.water_quality_sites qs'.
Proof.
  unfold Spec.water_quality_sites. now rewrite List.filter_app, map_app.
Qed.

(** A call whose target time is readable asks once for the water-quality
    product of its site, and only adds lines to the console. *)
Lemma neon_dwnld_sum_daily_world E savepath siteid sm em timeutc th tm w :
  parse_timeutc timeutc = Return (th, tm) ->
  let r := neon_dwnld_sum_daily E savepath siteid sm em timeutc w in
  (exists o, fst r = Return o)
  /\ Spec.water_quality_sites (requests (snd r))
     = Spec.water_quality_sites (requests w) ++ [siteid]
  /\ exists lines, stdout (snd r) = stdout w ++ lines.
Proof.
  intros Hp. simpl.
  rewrite (neon_dwnld_sum_daily_unfold _ _ _ _ _ _ _ _ _ Hp).
  pose proof (water_quality_world E savepath siteid sm em timeutc th tm w) as H1.
  destruct (water_quality E savepath siteid sm em timeutc th tm w)
    as [[[] | e] w1]; simpl in H1; destruct H1 as (Hs1 & Hr1 & _).
  - pose proof (discharge_world E savepath siteid sm em th tm w1) as H2.
    destruct (discharge E savepath siteid sm em th tm w1) as [[[] | e] w2];
      simpl in H2; destruct H2 as (Hs2 & Hr2 & _); simpl;
      (split; [eauto |]);
      (split; [rewrite Hr2, Hr1, !water_quality_sites_app; simpl;
               now rewrite app_nil_r |]);
      rewrite Hs2, Hs1; eauto.
  - simpl. split; [eauto |].
    split; [now rewrite Hr1, water_quality_sites_app |].
    rewrite Hs1. eauto.
Qed.

Lemma process_site_never_raises E entry w :
  fst (process_site E entry w) = Return tt.
Proof.
  destruct entry as [siteid params]. rewrite process_site_unfold.
  now destruct (neon_dwnld_sum_daily _ _ _ _ _ _ _) as [[o | e] w1].
Qed.

(** The console after one site: the announcement of the site, then
    whatever its processing printed. *)
Lemma process_site_stdout E siteid params w :
  exists lines,
    stdout (snd (process_site E (siteid, params) w))
    = stdout w ++ processing_site E siteid params :: lines.
Proof.
  rewrite process_site_unfold.
  destruct (parse_timeutc_cases (timeutc params))
    as [(a & b & Hp & _) | (e & He)].
  - destruct (neon_dwnld_sum_daily_world E main_savepath siteid
                (startmonth params) (endmonth params) (timeutc params) a b
                (logged (processing_site E siteid params) w) Hp)
      as (_ & _ & lines & Hl).
    destruct (neon_dwnld_sum_daily _ _ _ _ _ _ _) as [[o | e] w1];
      simpl in *; rewrite Hl, <- app_assoc; simpl.
    + now exists lines.
    + exists (lines ++ [error_processing E siteid e]).
      now rewrite <- app_assoc.
  - unfold neon_dwnld_sum_daily, bind at 1, lift. rewrite He. simpl.
    rewrite <- app_assoc. simpl. eauto.
Qed.

Lemma process_site_requests E siteid params th tm w :
  parse_timeutc (timeutc params) = Return (th, tm) ->
  Spec.water_quality_sites (requests (snd (process_site E (siteid, params) w)))
  = Spec.water_quality_sites (requests w) ++ [siteid].
Proof.
  intros Hp. rewrite process_site_unfold.
  destruct (neon_dwnld_sum_daily_world E main_savepath siteid
              (startmonth params) (endmonth params) (timeutc params) th tm
              (logged (processing_site E siteid params) w) Hp)
    as ((o & Ho) & Hr & _).
  destruct (neon_dwnld_sum_daily _ _ _ _ _ _ _) as [[o' | e] w1];
    simpl in *; [exact Hr | discriminate].
Qed.

Lemma for_each_site_cons E entry table w :
  for_each_site E (entry :: table) w
  = for_each_site E table (snd (process_site E entry w)).
Proof.
  simpl. unfold bind.
  pose proof (process_site_never_raises E entry w) as H.
  destruct (process_site E entry w) as [[[] | e] w1]; simpl in *;
    [reflexivity | discriminate].
Qed.

Lemma for_each_site_never_raises E table w :
  fst (for_each_site E table w) = Return tt.
Proof.
  revert w. induction table as [| entry table IH]; intros w; [reflexivity |].
  rewrite for_each_site_cons. apply IH.
Qed.

Lemma for_each_site_stdout E table w :
  exists trails,
    length trails = length table
    /\ stdout (snd (for_each_site E table w))
       = stdout w
         ++ concat (map (fun el => processing_site E (fst (fst el)) (snd (fst el))
                                   :: snd el)
                        (combine table trails)).
Proof.
  revert w. induction table as [| [siteid params] table IH]; intros w.
  - exists []. simpl. now rewrite app_nil_r.
  - rewrite for_each_site_cons.
    destruct (process_site_stdout E siteid params w) as (lines & Hl).
    destruct (IH (snd (process_site E (siteid, params) w))) as (trails & Hlen & Ht).
    exists (lines :: trails). split; [simpl; now rewrite Hlen |].
    rewrite Ht, Hl. simpl. now rewrite <- app_assoc.
Qed.

Lemma for_each_site_requests E table w :
  (forall entry, In entry table ->
                 exists th tm, parse_timeutc (timeutc (snd entry)) = Return (th, tm)) ->
  Spec.water_quality_sites (requests (snd (for_each_site E table w)))
  = Spec.water_quality_sites (requests w) ++ map fst table.
Proof.
  revert w. induction table as [| [siteid params] table IH]; intros w Hp.
  - simpl. now rewrite app_nil_r.
  - rewrite for_each_site_cons, IH by (intros en Hen; apply Hp; now right).
    destruct (Hp (siteid, params) (or_introl eq_refl)) as (th & tm & H).
    rewrite (process_site_requests _ _ _ _ _ _ H), <- app_assoc. reflexivity.
Qed.

(** C6. The driver never raises, whatever happens inside a site: when the
    Summarizer of a site raises, the loop prints the error and goes on with
    the rest of the table. The console shows the sites in the order of the
    table, [main] asks for the four sites in the order LEWI, COMO, LECO,
    MCRA, and its last line is the completion message. *)
Theorem C6_driver_isolates_site_failures (E : Env) (w : World) :
  (forall table w0, fst (for_each_site E table w0) = Return tt)
  /\ (forall siteid params rest w0 e w1,
         neon_dwnld_sum_daily E main_savepath siteid
           (startmonth params) (endmonth params) (timeutc params)
           (logged (processing_site E siteid params) w0) = (Raise e, w1) ->
         for_each_site E ((siteid, params) :: rest) w0
         = for_each_site E rest (logged (error_processing E siteid e) w1))
  /\ (forall table w0, exists trails,
         length trails = length table
         /\ stdout (snd (for_each_site E table w0))
            = stdout w0
              ++ concat (map (fun el => processing_site E (fst (fst el)) (snd (fst el))
                                        :: snd el)
                             (combine table trails)))
  /\ fst (main E w) = Return tt
  /\ Spec.water_quality_sites (requests (snd (main E w)))
     = Spec.water_quality_sites (requests w) ++ ["LEWI"; "COMO"; "LECO"; "MCRA"]%string
  /\ exists lines, stdout (snd (main E w)) = stdout w ++ lines ++ [all_processed].
Proof.
  split; [apply for_each_site_never_raises |].
  split.
  { intros siteid params rest w0 e w1 H.
    rewrite for_each_site_cons, process_site_unfold, H. reflexivity. }
  split; [apply for_each_site_stdout |].
  assert (Hmain : main E w
                  = (Return tt, logged all_processed
                                  (snd (for_each_site E site_inputs w)))).
  { unfold main, bind, print.
    pose proof (for_each_site_never_raises E site_inputs w) as H.
    destruct (for_each_site E site_inputs w) as [[[] | e] w1]; simpl in *;
      [reflexivity | discriminate]. }
  rewrite Hmain. cbn [fst snd logged requests stdout].
  split; [reflexivity |]. split.
  - rewrite for_each_site_requests; [reflexivity |].
    intros entry Hin. simpl in Hin.
    destruct Hin as [<- | [<- | [<- | [<- | []]]]]; simpl;
      eexists; eexists; reflexivity.
  - destruct (for_each_site_stdout E site_inputs w) as (trails & _ & Ht).
    rewrite Ht. rewrite <- app_assoc. eauto.
Qed.

End Driver.

(** ** The script on sample data *)

Section ScriptSamples.

Local Open Scope string_scope.



Lemma C5_water_quality_failure_witness :
  neon_dwnld_sum_daily Examples.env_down "out/" "LECO" "2023-10" "2024-09" "16:00"
    Examples.start
  = (Return ReturnedEarly,
     {| fs := ∅;
        stdout := ["Error downloading data: 503"];
        requests := [query Examples.env_down "DP1.20288.001" "LECO"
                       "2023-10" "2024-09"] |}).
Proof.
  destruct (C5_water_quality_failure_skips_discharge Examples.env_down "out/" "LECO"
              "2023-10" "2024-09" "16:00" 16 0 Examples.start
              (requested (query Examples.env_down "DP1.20288.001" "LECO"
                            "2023-10" "2024-09") Examples.start)
              (ServiceError "503"))
    as (H & _); [reflexivity | reflexivity |].
  rewrite H. reflexivity.
Defined.

Lemma C9_non_bundle_witness :
  requests (snd (neon_dwnld_sum_daily Examples.env_empty "out/" "LECO"
                   "2023-10" "2024-09" "16:00" Examples.start))
  = [query Examples.env_empty "DP1.20288.001" "LECO" "2023-10" "2024-09";
     query Examples.env_empty "DP4.00130.001" "LECO" "2023-10" "2024-09"].
Proof.
  destruct (C9_non_bundle_water_quality_goes_on_to_discharge Examples.env_empty
              "out/" "LECO" "2023-10" "2024-09" "16:00" 16 0 Examples.start)
    as (_ & _ & H & _); [reflexivity | reflexivity |].
  exact H.
Defined.

Lemma C10_unreadable_timeutc_witness :
  exists e,
    neon_dwnld_sum_daily Examples.env "out/" "LECO" "2023-10" "2024-09" "1600"
      Examples.start
    = (Raise e, Examples.start).
Proof.
  destruct (C10_unreadable_timeutc_raises_before_both_pipelines Examples.env
              "out/" "LECO" "2023-10" "2024-09" "1600" Examples.start)
    as (e & _ & H & _).
  - intros a b (h & m & Hs & _). vm_compute in Hs. discriminate Hs.
  - exists e. exact H.
Defined.

Lemma C4_discharge_exact_match_witness :
  fs (snd (discharge Examples.env "out/" "LECO" "2023-10" "2024-09" 16 0
             Examples.start))
     !! "out/LECO_daily_00130.csv"
  = Some (to_csv Examples.env
            {| columns := Examples.csd_columns;
               rows := [Examples.flow (Examples.on 9 16 0 0) 13;
                        Examples.flow (Examples.on 10 16 0 0) 14] |}).
Proof.
  destruct (C4_discharge_exact_match Examples.env "out/" "LECO" "2023-10" "2024-09"
              16 0 Examples.start Examples.csd_bundle Examples.csd
              (Examples.the Examples.no_frame
                 (convert_endDateTime (parse_datetime Examples.env) Examples.csd)))
    as (_ & _ & _ & _ & H & _);
    [reflexivity | reflexivity | reflexivity | vm_compute; reflexivity
    | reflexivity |].
  rewrite H. vm_compute. reflexivity.
Defined.

(** A table whose first site has an unreadable target time: the second site
    is processed all the same and its files are written. *)
Example driver_goes_on_after_a_failing_site :
  let table := [("XXXX", mkParams "2023-10" "2024-09" "4pm");
                ("LECO", mkParams "2023-10" "2024-09" "16:00")] in
  let final := snd (for_each_site Examples.env table Examples.start) in
  stdout final
  = [processing_site Examples.env "XXXX" (mkParams "2023-10" "2024-09" "4pm");
     "Error processing site XXXX: '4pm'";
     processing_site Examples.env "LECO" (mkParams "2023-10" "2024-09" "16:00");
     both_saved]
  /\ Spec.water_quality_sites (requests final) = ["LECO"]
  /\ fs final !! (main_savepath +:+ "LECO_daily_20288.csv")
     = Some "date,horizontalPosition,release,pH"
  /\ fs final !! (main_savepath +:+ "LECO_daily_00130.csv")
     = Some "endDateTime,siteID,usgsDischarge".
Proof. vm_compute. repeat split; reflexivity. Qed.

End ScriptSamples.

(** * Further properties *)

(** ** The window in whole seconds *)


Lemma Qle_bool_sixtieth q d a b :
  (q == inject_Z d / 60)%Q ->
  Qle_bool q (a # b) = (d * Zpos b <=? 60 * a).
Proof.
  intros H. apply eq_true_iff_eq. rewrite Qle_bool_iff, Z.leb_le, H.
  unfold Qle, Qdiv, Qmult, Qinv, inject_Z. simpl. lia.
Qed.

Lemma window_diff_seconds dt th tm :
  (Qabs (inject_Z (hour dt * 60 + minute dt) + inject_Z (second dt) / 60
         - inject_Z (th * 60 + tm))
   == inject_Z (Spec.seconds_apart dt th tm) / 60)%Q.
Proof.
  unfold Spec.seconds_apart, Spec.seconds_from_midnight.
  assert (H : (inject_Z (hour dt * 60 + minute dt) + inject_Z (second dt) / 60
               - inject_Z (th * 60 + tm)
               == inject_Z (3600 * hour dt + 60 * minute dt + second dt
                            - 60 * (60 * th + tm)) / 60)%Q).
  { unfold Z.sub.
    rewrite !inject_Z_plus, !inject_Z_opp, !inject_Z_mult, !inject_Z_plus,
      !inject_Z_mult.
    field. }
  rewrite H.
  set (n := 3600 * hour dt + 60 * minute dt + second dt - 60 * (60 * th + tm)).
  unfold Qdiv. rewrite Qabs_Qmult.
  assert (Hn : (Qabs (inject_Z n) == inject_Z (Z.abs n))%Q) by reflexivity.
  rewrite Hn. reflexivity.
Qed.

(** The test of lines 97-107 on whole seconds: 720 minutes are 43200
    seconds, 7.5 minutes are 450. *)
Lemma is_within_window_seconds dt th tm :
  is_within_window dt th tm
  = (let d := Spec.seconds_apart dt th tm in
     (if 43200 <? d then 86400 - d else d) <=? 450).
Proof.
  unfold is_within_window, Qgt_bool.
  set (q := Qabs _).
  assert (Hq : (q == inject_Z (Spec.seconds_apart dt th tm) / 60)%Q)
    by apply window_diff_seconds.
  set (d := Spec.seconds_apart dt th tm) in *. cbv zeta.
  change (inject_Z (12 * 60)) with (720 # 1).
  rewrite (Qle_bool_sixtieth q d 720 1 Hq), Z.ltb_antisym.
  replace (d * 1 <=? 60 * 720) with (d <=? 43200) by (f_equal; lia).
  destruct (d <=? 43200); simpl.
  - rewrite (Qle_bool_sixtieth q d 75 10 Hq).
    apply eq_true_iff_eq. rewrite !Z.leb_le. lia.
  - assert (H2 : (inject_Z (24 * 60) - q == inject_Z (86400 - d) / 60)%Q).
    { rewrite Hq. unfold Z.sub. rewrite inject_Z_plus, inject_Z_opp.
      change (inject_Z (24 * 60)) with (inject_Z 1440).
      change (inject_Z 86400) with (inject_Z 1440 * 60)%Q. field. }
    rewrite (Qle_bool_sixtieth _ _ 75 10 H2).
    apply eq_true_iff_eq. rewrite !Z.leb_le. lia.
Qed.

(** X1. A reading taken at exactly the target hour and minute, at second
    zero, is kept, whatever the two integers of the target are. *)
Theorem X1_reading_at_target_time_is_kept dt target_h target_m :
  hour dt = target_h -> minute dt = target_m -> second dt = 0 ->
  is_within_window dt target_h target_m = true.
Proof.
  intros Hh Hm Hs. rewrite is_within_window_seconds.
  unfold Spec.seconds_apart, Spec.seconds_from_midnight. rewrite Hh, Hm, Hs.
  replace (3600 * target_h + 60 * target_m + 0 - 60 * (60 * target_h + target_m))
    with 0 by lia.
  reflexivity.
Qed.

Lemma X1_reading_at_target_time_witness :
  is_within_window (mkTimestamp 2024 3 9 19 0 0) 19 0 = true.
Proof.
  apply X1_reading_at_target_time_is_kept; reflexivity.
Defined.

(** X2. For a clock time and a target time of a real day, the test keeps
    the reading exactly when the two are at most 450 seconds apart on the
    circle of 86400 seconds, that is by the shorter way round midnight. *)
Theorem X2_window_is_circular_distance dt target_h target_m :
  0 <= hour dt < 24 -> 0 <= minute dt < 60 -> 0 <= second dt < 60 ->
  0 <= target_h < 24 -> 0 <= target_m < 60 ->
  is_within_window dt target_h target_m
  = (Spec.circular_seconds dt target_h target_m <=? 450).
Proof.
  intros Hh Hm Hs Hth Htm. rewrite is_within_window_seconds.
  unfold Spec.circular_seconds. cbv zeta.
  assert (Hd : 0 <= Spec.seconds_apart dt target_h target_m < 86400).
  { unfold Spec.seconds_apart, Spec.seconds_from_midnight. lia. }
  destruct (Z.ltb_spec 43200 (Spec.seconds_apart dt target_h target_m));
    f_equal; lia.
Qed.

Lemma X2_window_is_circular_distance_witness :
  is_within_window (mkTimestamp 2024 3 9 23 59 0) 0 2
  = (Spec.circular_seconds (mkTimestamp 2024 3 9 23 59 0) 0 2 <=? 450).
Proof.
  apply X2_window_is_circular_distance; simpl; lia.
Defined.

(** X3. At the resolution of one minute the window holds fifteen minutes
    of the day: the target minute and the seven minutes on either side,
    counted across midnight. *)
Theorem X3_window_holds_seven_minutes_either_side dt target_h target_m :
  0 <= hour dt < 24 -> 0 <= minute dt < 60 -> second dt = 0 ->
  0 <= target_h < 24 -> 0 <= target_m < 60 ->
  is_within_window dt target_h target_m = true
  <-> exists k, -7 <= k <= 7
                /\ (60 * hour dt + minute dt) mod 1440
                   = (60 * target_h + target_m + k) mod 1440.
Proof.
  intros Hh Hm Hs Hth Htm. rewrite is_within_window_seconds. cbv zeta.
  unfold Spec.seconds_apart, Spec.seconds_from_midnight. rewrite Hs.
  set (M := 60 * hour dt + minute dt). set (T := 60 * target_h + target_m).
  replace (3600 * hour dt + 60 * minute dt + 0 - 60 * T) with (60 * (M - T)) by lia.
  assert (HM : 0 <= M < 1440) by lia. assert (HT : 0 <= T < 1440) by lia.
  rewrite Z.leb_le. split.
  - intros H.
    destruct (Z.ltb_spec 43200 (Z.abs (60 * (M - T)))).
    + destruct (Z_lt_le_dec M T).
      * exists (M - T + 1440). split; [lia |].
        replace (T + (M - T + 1440)) with (M + 1 * 1440) by lia.
        now rewrite Z.mod_add by lia.
      * exists (M - T - 1440). split; [lia |].
        replace (T + (M - T - 1440)) with (M + (-1) * 1440) by lia.
        now rewrite Z.mod_add by lia.
    + exists (M - T). split; [lia |]. f_equal. lia.
  - intros (k & Hk & Hmod).
    rewrite (Z.mod_small M) in Hmod by lia.
    pose proof (Z.div_mod (T + k) 1440 ltac:(lia)) as Hd.
    pose proof (Z.mod_pos_bound (T + k) 1440 ltac:(lia)) as Hb.
    destruct (Z.ltb_spec 43200 (Z.abs (60 * (M - T)))); lia.
Qed.

Lemma X3_window_holds_seven_minutes_witness :
  is_within_window (mkTimestamp 2024 3 9 23 57 0) 0 2 = true.
Proof.
  apply X3_window_holds_seven_minutes_either_side; simpl; try lia.
  exists (-5). split; [lia | reflexivity].
Defined.

Lemma is_within_window_float_witness :
  is_within_window_float (mkTimestamp 2024 3 9 16 7 30) 16 0
  = is_within_window (mkTimestamp 2024 3 9 16 7 30) 16 0.
Proof.
  apply (is_within_window_float_site_inputs
           ("LEWI"%string, mkParams "2023-10" "2024-09" "16:00"));
    [left; reflexivity | reflexivity | simpl; lia | simpl; lia | simpl; lia].
Defined.


(** ** The target time and the date step *)


Lemma rmap_Raise_head {A B} (f : A -> Result B) x l e :
  f x = Raise e -> rmap f (x :: l) = Raise e.
Proof. intros H. simpl. now rewrite H. Qed.

Lemma filter_window_kept th tm f :
  rows (filter_window th tm f) <> [] ->
  filter_window th tm f = where_ (in_window th tm) f.
Proof.
  unfold filter_window. destruct (rows f); [intros H; now elim H | reflexivity].
Qed.

(** X5. A target that line 58 reads but the format of line 119 refuses (an
    hour of 25, a sign, three digits) is found out at the date step: when
    the table has its endDateTime column and a reading was kept, line 117
    raises the format error of strptime. *)
Theorem X5_refused_clock_raises_with_kept_readings
    timeutc target_hour target_minute f :
  strptime_HM timeutc = None ->
  has_column "endDateTime" f = true ->
  rows (filter_window target_hour target_minute f) <> [] ->
  add_date timeutc (filter_window target_hour target_minute f)
  = Raise (ValueError_format timeutc).
Proof.
  intros Hs Hcol Hne. pose proof (filter_window_kept _ _ _ Hne) as Hfw.
  unfold add_date, assign.
  replace (has_column "endDateTime" (filter_window target_hour target_minute f))
    with true by (rewrite Hfw; symmetry; exact Hcol).
  destruct (rows (filter_window target_hour target_minute f)) as [| r l] eqn:Hr;
    [contradiction |].
  assert (Hin : In r (rows (filter_window target_hour target_minute f)))
    by (rewrite Hr; now left).
  apply filter_window_rows in Hin. destruct Hin as [_ Hw].
  unfold in_window in Hw.
  erewrite rmap_Raise_head; [reflexivity |].
  unfold synthetic_date.
  destruct (cell_at "endDateTime" r) as [q | s | t |]; try discriminate.
  unfold at_requested_time. rewrite Hs. reflexivity.
Qed.

(** With the target "25:00" a reading at 00:30 passes the window test, and
    the date step raises. *)
Lemma X5_refused_clock_witness :
  parse_timeutc "25:00" = Return (25, 0)
  /\ add_date "25:00" (filter_window 25 0 Examples.waq_midnight)
     = Raise (ValueError_format "25:00").
Proof.
  split; [reflexivity |].
  apply (X5_refused_clock_raises_with_kept_readings "25:00" 25 0
           Examples.waq_midnight); [reflexivity | reflexivity |].
  intros H. apply (f_equal (@List.length _)) in H. vm_compute in H.
  discriminate H.
Defined.

Lemma digit_value_range a : Text.is_digit a = true -> 0 <= Text.digit_value a <= 9.
Proof.
  unfold Text.is_digit, Text.digit_value. rewrite andb_true_iff, !Nat.leb_le. lia.
Qed.

Lemma field2_nonneg s v : Text.field2 s = Some v -> 0 <= v.
Proof.
  destruct s as [| a [| b [| c s]]]; simpl; try discriminate.
  - destruct (Text.is_digit a) eqn:Ha; [| discriminate].
    intros [= <-]. now apply digit_value_range.
  - destruct (Text.is_digit a) eqn:Ha; [| discriminate].
    destruct (Text.is_digit b) eqn:Hb; [| discriminate]. simpl.
    intros [= <-]. apply digit_value_range in Ha, Hb. lia.
Qed.

Lemma strptime_HM_range timeutc H M :
  strptime_HM timeutc = Some (H, M) -> 0 <= H <= 23 /\ 0 <= M <= 59.
Proof.
  unfold strptime_HM.
  destruct (Text.split ":" (Text.lstrip timeutc)) as [| h [| m [| x l]]];
    try discriminate.
  destruct (Text.field2 h) as [vh |] eqn:Hh; try discriminate.
  destruct (Text.field2 m) as [vm |] eqn:Hm; try discriminate.
  destruct ((vh <=? 23) && (vm <=? 59))%bool eqn:Hr; try discriminate.
  intros [= <- <-]. apply andb_true_iff in Hr. rewrite !Z.leb_le in Hr.
  apply field2_nonneg in Hh, Hm. lia.
Qed.

(** X6. Whenever the date step succeeds on at least one kept reading, the
    target hour and minute the window filter used are those of a real clock
    time: an out-of-range target never reaches the daily table. *)
Theorem X6_dated_readings_have_a_real_target
    timeutc target_hour target_minute f dated :
  parse_timeutc timeutc = Return (target_hour, target_minute) ->
  add_date timeutc (filter_window target_hour target_minute f) = Return dated ->
  rows dated <> [] ->
  0 <= target_hour <= 23 /\ 0 <= target_minute <= 59.
Proof.
  intros Hp Hd Hne.
  destruct (strptime_HM timeutc) as [[H M] |] eqn:Hs.
  - pose proof (strptime_HM_parse_timeutc _ _ _ Hs) as Hp'.
    rewrite Hp' in Hp. injection Hp as <- <-. now apply strptime_HM_range in Hs.
  - exfalso. apply add_date_assign, assign_Return in Hd.
    destruct Hd as [_ Hrows].
    destruct (rows dated) as [| r' l'] eqn:Hr; [contradiction |].
    destruct (Forall2_In_right _ _ _ _ Hrows (or_introl eq_refl))
      as (r & Hin & v & Hv & _).
    apply filter_window_rows in Hin. destruct Hin as [_ Hw].
    apply in_window_iff in Hw. destruct Hw as (t & Ht & _).
    unfold synthetic_date in Hv. rewrite Ht in Hv.
    unfold at_requested_time in Hv. rewrite Hs in Hv. discriminate.
Qed.

Lemma X6_dated_readings_witness : 0 <= 16 <= 23 /\ 0 <= 0 <= 59.
Proof.
  apply (X6_dated_readings_have_a_real_target "16:00" 16 0 Examples.waq_one
           (Examples.dated Examples.waq_one)); [reflexivity | reflexivity |].
  intros H. apply (f_equal (@List.length _)) in H. vm_compute in H.
  discriminate H.
Defined.


(** ** What reaches the daily table *)


Lemma first_in vals (P : cell -> Prop) :
  vals <> [] -> (forall v, In v vals -> P v /\ v <> NA) -> P (first vals).
Proof.
  destruct vals as [| v vals]; [contradiction |]. intros _ H.
  destruct (H v (or_introl eq_refl)) as [HP Hna].
  destruct v; simpl; try assumption. contradiction.
Qed.

Lemma subset_s2_Return f waq :
  subset_s2 f = Return waq ->
  columns waq = columns f
  /\ In "horizontalPosition"%string (labels f)
  /\ forall r, In r (rows waq) ->
               In r (rows f)
               /\ exists s, cell_at "horizontalPosition" r = Str s /\ In s s2locs.
Proof.
  intros H. split; [| split].
  - unfold subset_s2 in H.
    destruct (has_column "horizontalPosition" f); [| discriminate].
    now injection H as <-.
  - unfold subset_s2 in H.
    destruct (has_column "horizontalPosition" f) eqn:Hc; [| discriminate].
    now apply mem_In.
  - intros r Hr. now apply (subset_s2_rows f waq r H).
Qed.

Lemma set_dtype_keeps_label c d cols c' :
  In c' (map fst cols) -> In c' (map fst (set_dtype c d cols)).
Proof.
  intros H. unfold set_dtype. destruct (mem c (map fst cols)) eqn:Hm.
  - pose proof (set_dtype_labels c d cols Hm) as Hl. unfold set_dtype in Hl.
    rewrite Hm in Hl. now rewrite Hl.
  - rewrite map_app. apply in_app_iff. now left.
Qed.

(** Where the dated readings and the averaged columns of a successful run
    come from. *)
Lemma summarize_waq_row_origin parse timeutc th tm f daily :
  summarize_waq parse timeutc th tm f = Return daily ->
  exists dated,
    daily_averages dated = Return daily
    /\ In "horizontalPosition"%string (existing_meta dated)
    /\ (forall c, In c (numeric_cols dated) ->
                  c <> "endDateTime"%string /\ In (c, Number) (columns f))
    /\ forall r', In r' (rows dated) ->
          exists r, In r (rows f)
                    /\ (exists s, cell_at "horizontalPosition" r = Str s
                                  /\ In s s2locs)
                    /\ forall c, c <> "date"%string -> c <> "endDateTime"%string ->
                                 cell_at c r' = cell_at c r.
Proof.
  intros H. apply summarize_waq_stages in H.
  destruct H as (waq & waq' & dated & H1 & H2 & H3 & H4).
  exists dated. split; [exact H4 |].
  apply subset_s2_Return in H1. destruct H1 as (Hc1 & Hl1 & Hr1).
  pose proof H2 as H2'. unfold convert_endDateTime in H2'.
  destruct (has_column "endDateTime" waq) eqn:He; [| discriminate].
  apply assign_Return in H2'. destruct H2' as [Hc2 Hr2].
  pose proof H3 as H3'. rewrite (add_date_filter_window _ _ _ _ _ H3) in H3'.
  apply add_date_assign, assign_Return in H3'. destruct H3' as [Hc3 Hr3].
  cbn [where_ columns rows] in Hc3, Hr3.
  split; [| split].
  - apply existing_meta_In. split; [right; right; now left |].
    unfold labels. rewrite Hc3. apply set_dtype_keeps_label.
    rewrite Hc2. apply set_dtype_keeps_label. rewrite Hc1. exact Hl1.
  - intros c Hc. pose proof Hc as Hc'.
    apply numeric_cols_In in Hc. destruct Hc as [Hin _].
    assert (Hd : c <> "date"%string).
    { intros ->. now apply (add_date_columns _ _ _ H3) in Hc'. }
    rewrite Hc3 in Hin. apply set_dtype_In_other in Hin; [| exact Hd].
    rewrite Hc2 in Hin.
    destruct (string_dec c "endDateTime") as [-> | Hne].
    + apply set_dtype_In in Hin; [discriminate | reflexivity].
    + split; [exact Hne |].
      apply set_dtype_In_other in Hin; [| exact Hne]. now rewrite <- Hc1.
  - intros r' Hr'.
    destruct (Forall2_In_right _ _ _ _ Hr3 Hr') as (r0 & Hr0 & v & _ & ->).
    apply filter_In in Hr0. destruct Hr0 as [Hr0 _].
    destruct (Forall2_In_right _ _ _ _ Hr2 Hr0) as (r1 & Hin1 & v1 & _ & ->).
    destruct (Hr1 r1 Hin1) as (Hf & s & Hs & Hs2).
    exists r1. split; [exact Hf |]. split; [eauto |].
    intros c Hd He'. rewrite !cell_at_insert_ne by congruence. reflexivity.
Qed.

(** X7. Every row of the daily table carries, as its horizontal position,
    one of the four codes of line 87: readings of other positions, or whose
    position is a number rather than a text, take no part. *)
Theorem X7_daily_rows_are_of_the_four_positions
    parse timeutc target_hour target_minute f daily o :
  summarize_waq parse timeutc target_hour target_minute f = Return daily ->
  In o (rows daily) ->
  exists s, cell_at "horizontalPosition" o = Str s /\ In s s2locs.
Proof.
  intros H Ho. apply summarize_waq_row_origin in H.
  destruct H as (dated & Hd & Hmeta & _ & Horigin).
  apply daily_averages_Return in Hd. destruct Hd as [_ Hrows].
  destruct (Forall2_In_right _ _ _ _ Hrows Ho) as (k & Hk & _ & _ & Hfirst).
  rewrite (Hfirst _ Hmeta).
  apply group_keys_In in Hk. destruct Hk as (r0 & Hr0 & Hk0).
  apply (first_in _ (fun v => exists s, v = Str s /\ In s s2locs)).
  - assert (Hg : In r0 (group k (rows dated))) by (apply group_In; auto).
    destruct (group k (rows dated)); [destruct Hg | discriminate].
  - intros v Hv. apply in_map_iff in Hv. destruct Hv as (r' & <- & Hr').
    apply group_In in Hr'. destruct Hr' as [Hr' _].
    destruct (Horigin r' Hr') as (r & _ & (s & Hs & Hs2) & Hsame).
    rewrite Hsame by discriminate. rewrite Hs. split; [eauto | discriminate].
Qed.

Lemma X7_daily_rows_positions_witness :
  exists s,
    cell_at "horizontalPosition"
      (nth 0 (rows (Examples.summary Examples.waq_one)) ∅) = Str s
    /\ In s s2locs.
Proof.
  apply (X7_daily_rows_are_of_the_four_positions (fun _ => None) "16:00" 16 0
           Examples.waq_one (Examples.summary Examples.waq_one)).
  - vm_compute. reflexivity.
  - apply nth_In. vm_compute. lia.
Defined.

(** X8. The daily table starts with [date] and has, besides, only metadata
    columns and numeric columns of the downloaded table: [endDateTime] and
    every other text or time column are left out. *)
Theorem X8_daily_columns_are_date_metadata_and_numbers
    parse timeutc target_hour target_minute f daily :
  summarize_waq parse timeutc target_hour target_minute f = Return daily ->
  hd_error (labels daily) = Some "date"%string
  /\ ~ In "endDateTime"%string (labels daily)
  /\ forall c, In c (labels daily) ->
               c = "date"%string \/ In c metadata_cols
               \/ In (c, Number) (columns f).
Proof.
  intros H. apply summarize_waq_row_origin in H.
  destruct H as (dated & Hd & _ & Hnum & _).
  apply daily_averages_Return in Hd. destruct Hd as [Hl _]. rewrite Hl.
  cbn [app].
  split; [reflexivity |]. split.
  - intros [H | H]; [discriminate |].
    apply in_app_iff in H. destruct H as [H | H].
    + apply existing_meta_In in H. destruct H as [H _].
      simpl in H. intuition discriminate.
    + apply Hnum in H. destruct H as [H _]. now apply H.
  - intros c [<- | Hc]; [now left |]. right.
    apply in_app_iff in Hc. destruct Hc as [Hc | Hc].
    + left. now apply existing_meta_In in Hc.
    + right. now apply Hnum.
Qed.

Lemma X8_daily_columns_witness :
  ~ In "endDateTime"%string (labels (Examples.summary Examples.waq_one)).
Proof.
  destruct (X8_daily_columns_are_date_metadata_and_numbers (fun _ => None)
              "16:00" 16 0 Examples.waq_one (Examples.summary Examples.waq_one))
    as (_ & H & _); [vm_compute; reflexivity | exact H].
Defined.

(** X9. Whatever the order of the readings, the rows of the daily table
    come in increasing order of their date. *)
Theorem X9_daily_rows_are_in_date_order dated daily :
  daily_averages dated = Return daily ->
  exists keys, map (cell_at "date") (rows daily) = map Time keys
               /\ StronglySorted Spec.before keys.
Proof.
  intros H. apply daily_averages_Return in H. destruct H as [_ Hrows].
  exists (group_keys (rows dated)). split; [| apply group_keys_sorted].
  apply (Forall2_map_eq _ _ _ _ _ Hrows). now intros k o [Hk _].
Qed.

Lemma X9_daily_rows_order_witness :
  exists keys,
    map (cell_at "date") (rows (Examples.daily Examples.waq_reversed))
    = map Time keys
    /\ StronglySorted Spec.before keys.
Proof.
  apply (X9_daily_rows_are_in_date_order (Examples.dated Examples.waq_reversed)).
  vm_compute. reflexivity.
Defined.

(** ** Every kept reading is in one group *)

Lemma group_cons k r rs :
  group k (r :: rs) = if has_key k r then r :: group k rs else group k rs.
Proof. reflexivity. Qed.

Lemma has_key_other k k' r :
  cell_at "date" r = Time k -> k' <> k -> has_key k' r = false.
Proof.
  intros H Hne. unfold has_key. rewrite H. apply bool_decide_eq_false. congruence.
Qed.

Lemma has_key_undated k r : Spec.is_dated r = false -> has_key k r = false.
Proof. unfold Spec.is_dated, has_key. now destruct (cell_at "date" r). Qed.

Lemma sizes_cons_undated keys r rs :
  Spec.is_dated r = false ->
  Spec.group_sizes keys (r :: rs) = Spec.group_sizes keys rs.
Proof.
  intros H. unfold Spec.group_sizes. apply map_ext. intros k.
  now rewrite group_cons, (has_key_undated _ _ H).
Qed.

Lemma sizes_cons_absent keys k r rs :
  cell_at "date" r = Time k -> ~ In k keys ->
  Spec.group_sizes keys (r :: rs) = Spec.group_sizes keys rs.
Proof.
  intros H Hk. unfold Spec.group_sizes. apply map_ext_in. intros k' Hk'.
  rewrite group_cons, (has_key_other _ _ _ H); [reflexivity |].
  intros ->. contradiction.
Qed.

Lemma sizes_sum_cons k keys rs :
  list_sum (Spec.group_sizes (k :: keys) rs)
  = (length (group k rs) + list_sum (Spec.group_sizes keys rs))%nat.
Proof. reflexivity. Qed.

Lemma sizes_cons_present keys k r rs :
  cell_at "date" r = Time k -> List.NoDup keys -> In k keys ->
  list_sum (Spec.group_sizes keys (r :: rs))
  = S (list_sum (Spec.group_sizes keys rs)).
Proof.
  intros H Hnd. induction Hnd as [| k' keys Hnot Hnd IH]; [intros [] |].
  intros [-> | Hin]; rewrite !sizes_sum_cons.
  - rewrite (sizes_cons_absent _ _ _ _ H Hnot), group_cons.
    assert (Hk : has_key k r = true) by now apply has_key_true.
    rewrite Hk. reflexivity.
  - rewrite (IH Hin), group_cons, (has_key_other _ _ _ H).
    + lia.
    + intros ->. contradiction.
Qed.

Lemma insert_key_present k keys :
  StronglySorted Spec.before keys -> In k keys -> insert_key k keys = keys.
Proof.
  induction 1 as [| k' keys Hs IH Hall]; [intros [] |].
  rewrite List.Forall_forall in Hall.
  intros [-> | Hin]; simpl.
  - destruct (compare k k) eqn:Hc; [reflexivity | |].
    + apply compare_Lt in Hc. now apply before_irrefl in Hc.
    + apply compare_Gt in Hc. now apply before_irrefl in Hc.
  - destruct (compare k k') eqn:Hc; [reflexivity | |].
    + apply compare_Lt in Hc. exfalso.
      exact (before_irrefl _ (before_trans _ _ _ Hc (Hall _ Hin))).
    + now rewrite IH.
Qed.

Lemma sizes_insert_absent k keys rs :
  ~ In k keys ->
  list_sum (Spec.group_sizes (insert_key k keys) rs)
  = (length (group k rs) + list_sum (Spec.group_sizes keys rs))%nat.
Proof.
  induction keys as [| k' keys IH]; intros Hnot; [simpl; lia |].
  simpl. destruct (compare k k') eqn:Hc.
  - apply compare_Eq in Hc. subst. exfalso. apply Hnot. now left.
  - reflexivity.
  - rewrite !sizes_sum_cons, IH; [lia |].
    intros Hin. apply Hnot. now right.
Qed.

Lemma group_absent k rs : ~ In k (group_keys rs) -> group k rs = [].
Proof.
  intros H. destruct (group k rs) as [| r l] eqn:Hg; [reflexivity |].
  exfalso. apply H. apply group_keys_In.
  assert (Hin : In r (group k rs)) by (rewrite Hg; now left).
  apply group_In in Hin. exists r. exact Hin.
Qed.

(** The sizes of the groups add up to the number of rows that have a
    date. *)
Lemma group_sizes_total rs :
  list_sum (Spec.group_sizes (group_keys rs) rs)
  = length (List.filter Spec.is_dated rs).
Proof.
  induction rs as [| r rs IH]; [reflexivity |].
  cbn [group_keys fold_right List.filter]. fold (group_keys rs).
  unfold Spec.is_dated at 1.
  destruct (cell_at "date" r) as [q | s | k |] eqn:Hd;
    try (rewrite sizes_cons_undated by (unfold Spec.is_dated; now rewrite Hd);
         exact IH).
  cbn [length]. rewrite <- IH.
  destruct (in_dec Timestamp_eq_dec k (group_keys rs)) as [Hin | Hnot].
  - rewrite (insert_key_present _ _ (group_keys_sorted rs) Hin).
    apply (sizes_cons_present _ _ _ _ Hd); [| exact Hin].
    apply sorted_NoDup, group_keys_sorted.
  - rewrite (sizes_insert_absent _ _ _ Hnot), group_cons.
    assert (Hk : has_key k r = true) by now apply has_key_true.
    rewrite Hk, (group_absent _ _ Hnot), (sizes_cons_absent _ _ _ _ Hd Hnot).
    reflexivity.
Qed.

(** X10. The grouping loses no kept reading and counts none twice: every
    dated reading belongs to the group of one key only, and the sizes of the
    groups add up to the number of kept readings. *)
Theorem X10_groups_partition_the_kept_readings
    timeutc target_hour target_minute f dated :
  add_date timeutc (filter_window target_hour target_minute f) = Return dated ->
  list_sum (Spec.group_sizes (group_keys (rows dated)) (rows dated))
  = length (rows (filter_window target_hour target_minute f))
  /\ forall r, In r (rows dated) ->
       exists k, In k (group_keys (rows dated))
                 /\ forall k', In r (group k' (rows dated)) <-> k' = k.
Proof.
  intros H. apply add_date_assign, assign_Return in H. destruct H as [_ H].
  assert (Hw : forall r, In r (rows (filter_window target_hour target_minute f)) ->
                         exists t, cell_at "endDateTime" r = Time t).
  { intros r Hr. apply filter_window_rows in Hr. destruct Hr as [_ Hr].
    apply in_window_iff in Hr. destruct Hr as (t & Ht & _). eauto. }
  assert (Hall : forall r', In r' (rows dated) ->
                            exists k, cell_at "date" r' = Time k).
  { intros r' Hr'.
    destruct (Forall2_In_right _ _ _ _ H Hr') as (r & Hr & v & Hv & ->).
    destruct (Hw r Hr) as (t & Ht). unfold synthetic_date in Hv. rewrite Ht in Hv.
    apply rbind_Return in Hv. destruct Hv as (d & _ & [= <-]).
    exists d. apply cell_at_insert. }
  split.
  - rewrite group_sizes_total, filter_all.
    + symmetry. eapply Forall2_length. exact H.
    + intros r' Hr'. destruct (Hall r' Hr') as (k & Hk).
      unfold Spec.is_dated. now rewrite Hk.
  - intros r' Hr'. destruct (Hall r' Hr') as (k & Hk). exists k. split.
    + apply group_keys_In. eauto.
    + intros k'. rewrite group_In. split.
      * intros [_ Hk']. congruence.
      * intros ->. auto.
Qed.

Lemma X10_groups_partition_witness :
  list_sum (Spec.group_sizes (group_keys (rows (Examples.dated Examples.waq_one)))
              (rows (Examples.dated Examples.waq_one)))
  = 2%nat.
Proof.
  destruct (X10_groups_partition_the_kept_readings "16:00" 16 0 Examples.waq_one
              (Examples.dated Examples.waq_one)) as [H _];
    [vm_compute; reflexivity |].
  rewrite H. vm_compute. reflexivity.
Defined.

(** ** The citation file and capital letters *)

Lemma lower_ascii_idem a :
  Text.lower_ascii (Text.lower_ascii a) = Text.lower_ascii a.
Proof. destruct a as [[] [] [] [] [] [] [] []]; reflexivity. Qed.

Lemma prefix_lower n k :
  String.prefix n (Text.lower k) = true -> Text.lower n = n.
Proof.
  revert k. induction n as [| a n IH]; intros k; [reflexivity |].
  destruct k as [| c k]; simpl; [discriminate |].
  destruct (ascii_dec a (Text.lower_ascii c)) as [-> | _]; [| discriminate].
  intros H. rewrite lower_ascii_idem. f_equal. eapply IH. exact H.
Qed.

Lemma contains_lower n k :
  Text.contains n (Text.lower k) = true -> Text.lower n = n.
Proof.
  induction k as [| c k IH].
  - simpl. destruct n; [reflexivity | discriminate].
  - intros H. cbn [Text.lower] in H. cbn [Text.contains] in H.
    destruct (String.prefix n (String (Text.lower_ascii c) (Text.lower k))) eqn:Hp.
    + apply (prefix_lower n (String c k)). exact Hp.
    + apply IH. exact H.
Qed.

(** X11. Line 27 lowers the key and not the product code: with a capital
    letter in the code no key of any bundle is selected, and the file
    receives the text of the empty list. *)
Theorem X11_code_with_capital_selects_nothing
    (E : Env) (dpnum siteid savepath : string)
    (data : list (string * value)) (w : World) :
  Text.lower dpnum <> dpnum ->
  open_error E (citation_path savepath siteid dpnum) = None ->
  write_citation E dpnum siteid data savepath w
  = (Return tt,
     written (citation_path savepath siteid dpnum) ("[]" +:+ Text.newline) w).
Proof.
  intros Hup Hopen. unfold write_citation.
  rewrite write_file_ok by exact Hopen.
  replace (List.filter _ data) with (@nil (string * value)); [reflexivity |].
  symmetry. induction data as [| kv data IH]; [reflexivity |].
  simpl. rewrite IH.
  destruct (Text.contains _ _) eqn:Hc; [| reflexivity].
  exfalso. apply Hup. apply contains_lower in Hc.
  rewrite lower_append in Hc. now apply append_inv_head in Hc.
Qed.

Lemma X11_code_with_capital_witness :
  fs (snd (write_citation Examples.env "AB" "LECO"
             [("citation_ab"%string, Text "a citation");
              ("citation_AB"%string, Text "another")] "out/" Examples.start))
     !! "out/LECO_citation_AB.txt"%string
  = Some ("[]" +:+ Text.newline).
Proof.
  rewrite (X11_code_with_capital_selects_nothing Examples.env "AB" "LECO" "out/");
    [| vm_compute; discriminate | reflexivity].
  vm_compute. reflexivity.
Defined.

(** ** How a call of the Summarizer ends *)

(** X12. When the first [try] ends normally and the body of the second
    raises, the call prints the error line and returns early; the
    water-quality files stay as the first [try] left them, and the success
    line is not printed. *)
Theorem X12_discharge_failure_keeps_water_quality_files
    (E : Env) (savepath siteid sm em timeutc : string) (th tm : Z)
    (w w1 w2 : World) (e : exn) :
  parse_timeutc timeutc = Return (th, tm) ->
  water_quality E savepath siteid sm em timeutc th tm w = (Return tt, w1) ->
  discharge E savepath siteid sm em th tm w1 = (Raise e, w2) ->
  neon_dwnld_sum_daily E savepath siteid sm em timeutc w
  = (Return ReturnedEarly, logged (error_downloading E e) w2)
  /\ stdout (logged (error_downloading E e) w2)
     = stdout w ++ [error_downloading E e]
  /\ fs w2 !! daily_path savepath siteid "20288"
     = fs w1 !! daily_path savepath siteid "20288"
  /\ fs w2 !! citation_path savepath siteid "20288"
     = fs w1 !! citation_path savepath siteid "20288".
Proof.
  intros Hp H1 H2.
  pose proof (water_quality_world E savepath siteid sm em timeutc th tm w) as Hw1.
  rewrite H1 in Hw1. simpl in Hw1. destruct Hw1 as (Hs1 & _ & _).
  pose proof (discharge_world E savepath siteid sm em th tm w1) as Hw2.
  rewrite H2 in Hw2. simpl in Hw2. destruct Hw2 as (Hs2 & _ & Hf2).
  destruct (paths_20288_00130 savepath siteid) as (_ & _ & Hc2 & Hd2).
  split.
  - rewrite (neon_dwnld_sum_daily_unfold _ _ _ _ _ _ _ _ _ Hp), H1, H2.
    reflexivity.
  - split; [simpl; now rewrite Hs2, Hs1 |].
    split; [exact (Hf2 _ Hd2) | exact (Hf2 _ Hc2)].
Qed.

Lemma X12_discharge_failure_witness :
  let final :=
    snd (neon_dwnld_sum_daily Examples.env_discharge_down "out/" "LECO"
           "2023-10" "2024-09" "16:00" Examples.start) in
  stdout final = ["Error downloading data: timeout"%string]
  /\ fs final !! "out/LECO_daily_20288.csv"%string
     = Some "date,horizontalPosition,release,pH"%string.
Proof.
  set (w1 := snd (water_quality Examples.env_discharge_down "out/" "LECO"
                    "2023-10" "2024-09" "16:00" 16 0 Examples.start)).
  set (w2 := snd (discharge Examples.env_discharge_down "out/" "LECO"
                    "2023-10" "2024-09" 16 0 w1)).
  destruct (X12_discharge_failure_keeps_water_quality_files
              Examples.env_discharge_down "out/" "LECO" "2023-10" "2024-09" "16:00"
              16 0 Examples.start w1 w2 (ServiceError "timeout"))
    as (H & _);
    [reflexivity | vm_compute; reflexivity | vm_compute; reflexivity |].
  cbv zeta. rewrite H. vm_compute. split; reflexivity.
Defined.

(** X13. When both downloads return something that is not a bundle, the
    call writes no file at all and still prints that both products were
    summarized and saved. *)
Theorem X13_success_line_without_any_file
    (E : Env) (savepath siteid sm em timeutc : string) (th tm : Z) (w : World) :
  parse_timeutc timeutc = Return (th, tm) ->
  load_by_product E (query E "DP1.20288.001" siteid sm em) = Return PyOther ->
  load_by_product E (query E "DP4.00130.001" siteid sm em) = Return PyOther ->
  neon_dwnld_sum_daily E savepath siteid sm em timeutc w
  = (Return Finished,
     {| fs := fs w; stdout := stdout w ++ [both_saved];
        requests := requests w ++ [query E "DP1.20288.001" siteid sm em;
                                   query E "DP4.00130.001" siteid sm em] |}).
Proof.
  intros Hp H1 H2.
  rewrite (neon_dwnld_sum_daily_unfold _ _ _ _ _ _ _ _ _ Hp).
  unfold water_quality, discharge, bind, download. rewrite H1. simpl.
  rewrite H2. simpl.
  unfold logged, requested. simpl. now rewrite <- app_assoc.
Qed.

Lemma X13_success_line_witness :
  let final :=
    snd (neon_dwnld_sum_daily Examples.env_nothing "out/" "LECO"
           "2023-10" "2024-09" "16:00" Examples.start) in
  fs final = ∅ /\ stdout final = [both_saved].
Proof.
  cbv zeta.
  rewrite (X13_success_line_without_any_file Examples.env_nothing "out/" "LECO"
             "2023-10" "2024-09" "16:00" 16 0 Examples.start);
    [| reflexivity | reflexivity | reflexivity].
  split; reflexivity.
Defined.

Lemma getitem_missing key data :
  (forall v, ~ In (key, v) data) -> getitem key data = Raise (KeyError key).
Proof.
  intros H. unfold getitem.
  destruct (find _ data) as [[k v] |] eqn:Hf; [| reflexivity].
  apply find_some in Hf. destruct Hf as [Hin Heq]. simpl in Heq.
  apply String.eqb_eq in Heq. subst. exfalso. exact (H v Hin).
Qed.

(** X14. A water-quality bundle without the key [waq_instantaneous]: the
    citation file has been written by then, the missing key is caught and
    printed, no daily file is written and the call returns early. *)
Theorem X14_bundle_without_table_leaves_citation_only
    (E : Env) (savepath siteid sm em timeutc : string) (th tm : Z) (w : World)
    (data : list (string * value)) :
  parse_timeutc timeutc = Return (th, tm) ->
  load_by_product E (query E "DP1.20288.001" siteid sm em) = Return (PyDict data) ->
  open_error E (citation_path savepath siteid "20288") = None ->
  (forall v, ~ In ("waq_instantaneous"%string, v) data) ->
  neon_dwnld_sum_daily E savepath siteid sm em timeutc w
  = (Return ReturnedEarly,
     logged (error_downloading E (KeyError "waq_instantaneous"))
       (snd (write_citation E "20288" siteid data savepath
               (requested (query E "DP1.20288.001" siteid sm em) w))))
  /\ fs (snd (neon_dwnld_sum_daily E savepath siteid sm em timeutc w))
        !! daily_path savepath siteid "20288"
     = fs w !! daily_path savepath siteid "20288"
  /\ is_Some (fs (snd (neon_dwnld_sum_daily E savepath siteid sm em timeutc w))
                 !! citation_path savepath siteid "20288").
Proof.
  intros Hp Hload Hcit Hmiss.
  assert (Hwq : water_quality E savepath siteid sm em timeutc th tm w
                = (Raise (KeyError "waq_instantaneous"),
                   snd (write_citation E "20288" siteid data savepath
                          (requested (query E "DP1.20288.001" siteid sm em) w)))).
  { unfold water_quality.
    erewrite bind_Return by (unfold download; rewrite Hload; reflexivity).
    unfold summarize_water_quality.
    erewrite bind_Return
      by (unfold write_citation; apply write_file_ok; exact Hcit).
    unfold bind, lift. rewrite (getitem_missing _ _ Hmiss).
    unfold write_citation. rewrite write_file_ok by exact Hcit. reflexivity. }
  assert (Hn : neon_dwnld_sum_daily E savepath siteid sm em timeutc w
               = (Return ReturnedEarly,
                  logged (error_downloading E (KeyError "waq_instantaneous"))
                    (snd (write_citation E "20288" siteid data savepath
                            (requested (query E "DP1.20288.001" siteid sm em) w))))).
  { rewrite (neon_dwnld_sum_daily_unfold _ _ _ _ _ _ _ _ _ Hp), Hwq.
    reflexivity. }
  split; [exact Hn |]. rewrite Hn.
  unfold write_citation. rewrite write_file_ok by exact Hcit. simpl.
  split.
  - apply lookup_insert_ne. unfold daily_path. intros H.
    apply append_inv_head, append_inv_head in H. discriminate H.
  - unfold citation_path. rewrite lookup_insert_eq. eauto.
Qed.

Lemma X14_bundle_without_table_witness :
  stdout (snd (neon_dwnld_sum_daily Examples.env_no_table "out/" "LECO"
                 "2023-10" "2024-09" "16:00" Examples.start))
  = ["Error downloading data: 'waq_instantaneous'"%string].
Proof.
  destruct (X14_bundle_without_table_leaves_citation_only Examples.env_no_table
              "out/" "LECO" "2023-10" "2024-09" "16:00" 16 0 Examples.start
              Examples.bundle_no_table) as (H & _);
    [reflexivity | reflexivity | reflexivity | |].
  - intros v [[=] | []].
  - rewrite H. reflexivity.
Defined.






(** ** The driver on any table *)

Lemma process_site_unreadable E siteid params e w :
  parse_timeutc (timeutc params) = Raise e ->
  requests (snd (process_site E (siteid, params) w)) = requests w.
Proof.
  intros He. rewrite process_site_unfold.
  unfold neon_dwnld_sum_daily, bind at 1, lift. rewrite He. reflexivity.
Qed.

(** X16. For any site table the loop asks for the water-quality product of
    exactly the sites whose target time is readable, once each and in the
    order of the table; a site with an unreadable time makes no request and
    does not stop the sites after it. *)
Theorem X16_driver_requests_the_readable_sites_in_order
    (E : Env) (table : list (string * Params)) (w : World) :
  Spec.water_quality_sites (requests (snd (for_each_site E table w)))
  = Spec.water_quality_sites (requests w)
    ++ map fst (List.filter Spec.readable table).
Proof.
  revert w. induction table as [| [siteid params] table IH]; intros w.
  - simpl. now rewrite app_nil_r.
  - rewrite for_each_site_cons, IH. cbn [List.filter].
    unfold Spec.readable at 2. cbn [snd].
    destruct (parse_timeutc (timeutc params)) as [[th tm] | e] eqn:Hp.
    + rewrite (process_site_requests _ _ _ _ _ _ Hp), <- app_assoc. reflexivity.
    + now rewrite (process_site_unreadable _ _ _ _ _ Hp).
Qed.

Lemma neon_dwnld_sum_daily_files E savepath siteid sm em timeutc w p :
  ~ In p (Spec.site_files savepath siteid) ->
  fs (snd (neon_dwnld_sum_daily E savepath siteid sm em timeutc w)) !! p
  = fs w !! p.
Proof.
  intros Hnot.
  destruct (parse_timeutc_cases timeutc) as [(th & tm & Hp & _) | (e & He)].
  - rewrite (neon_dwnld_sum_daily_unfold _ _ _ _ _ _ _ _ _ Hp).
    pose proof (water_quality_world E savepath siteid sm em timeutc th tm w) as H1.
    assert (N1 : ~ In p [savepath +:+ siteid +:+ "_citation_" +:+ "20288" +:+ ".txt";
                         savepath +:+ siteid +:+ "_daily_20288.csv"]).
    { intros H. apply Hnot. unfold Spec.site_files, citation_path, daily_path.
      cbn [In] in *. tauto. }
    assert (N2 : ~ In p [savepath +:+ siteid +:+ "_citation_" +:+ "00130" +:+ ".txt";
                         savepath +:+ siteid +:+ "_daily_00130.csv"]).
    { intros H. apply Hnot. unfold Spec.site_files, citation_path, daily_path.
      cbn [In] in *. tauto. }
    destruct (water_quality E savepath siteid sm em timeutc th tm w)
      as [[[] | e] w1]; simpl in H1; destruct H1 as (_ & _ & Hf1).
    + pose proof (discharge_world E savepath siteid sm em th tm w1) as H2.
      destruct (discharge E savepath siteid sm em th tm w1) as [[[] | e] w2];
        simpl in H2; destruct H2 as (_ & _ & Hf2); simpl;
        now rewrite (Hf2 _ N2), (Hf1 _ N1).
    + simpl. exact (Hf1 _ N1).
  - unfold neon_dwnld_sum_daily, bind at 1, lift. now rewrite He.
Qed.

Lemma process_site_files E siteid params w p :
  ~ In p (Spec.site_files main_savepath siteid) ->
  fs (snd (process_site E (siteid, params) w)) !! p = fs w !! p.
Proof.
  intros Hnot. rewrite process_site_unfold.
  pose proof (neon_dwnld_sum_daily_files E main_savepath siteid
                (startmonth params) (endmonth params) (timeutc params)
                (logged (processing_site E siteid params) w) p Hnot) as H.
  destruct (neon_dwnld_sum_daily _ _ _ _ _ _ _) as [[o | e] w1];
    simpl in *; exact H.
Qed.

(** X17. The loop touches no file but the four files of the sites of its
    table, in the directory [main] names: two citation files and two daily
    files per site. *)
Theorem X17_driver_touches_only_the_files_of_its_sites
    (E : Env) (table : list (string * Params)) (w : World) (p : string) :
  (forall entry, In entry table ->
                 ~ In p (Spec.site_files main_savepath (fst entry))) ->
  fs (snd (for_each_site E table w)) !! p = fs w !! p.
Proof.
  revert w. induction table as [| [siteid params] table IH]; intros w H;
    [reflexivity |].
  rewrite for_each_site_cons, IH by (intros en Hen; apply H; now right).
  apply process_site_files. exact (H (siteid, params) (or_introl eq_refl)).
Qed.

Lemma X17_driver_files_witness :
  fs (snd (for_each_site Examples.env site_inputs
             (written "notes.txt" "keep" Examples.start)))
     !! "notes.txt"%string
  = Some "keep"%string.
Proof.
  rewrite (X17_driver_touches_only_the_files_of_its_sites Examples.env site_inputs).
  - reflexivity.
  - intros entry Hin. simpl in Hin.
    destruct Hin as [<- | [<- | [<- | [<- | []]]]];
      vm_compute; intuition discriminate.
Defined.

(** ** The aggregation cannot fail, the window can be empty *)

Lemma find_all_false {A} (p : A -> bool) l :
  (forall x, In x l -> p x = false) -> List.find p l = None.
Proof.
  induction l as [| x l IH]; intros H; [reflexivity |].
  simpl. rewrite (H x) by now left. apply IH. intros y Hy. apply H. now right.
Qed.

(** Lines 123-134 succeed on a table that has a [date] column and at least
    one metadata column. *)
Lemma daily_averages_succeeds dated :
  In "date"%string (labels dated) ->
  existing_meta dated <> [] ->
  exists daily, daily_averages dated = Return daily
                /\ length (rows daily) = length (group_keys (rows dated)).
Proof.
  intros Hdate Hmeta.
  unfold daily_averages, daily_averages_with, groupby_date_agg_with.
  assert (Hc : has_column "date" dated = true) by now apply mem_In.
  rewrite Hc. cbn [negb].
  destruct (agg_map dated) as [| ch m] eqn:Hm.
  { exfalso. apply Hmeta. pose proof (agg_map_labels dated) as Hl.
    rewrite Hm in Hl. simpl in Hl. symmetry in Hl.
    apply app_eq_nil in Hl. tauto. }
  rewrite <- Hm. cbn [rbind].
  set (g := {| columns := ("date"%string, Datetime)
                          :: map (agg_dtype dated) (agg_map dated);
               rows := map (fun k => agg_row_with exact_average (agg_map dated) k
                                       (group k (rows dated)))
                           (group_keys (rows dated)) |}).
  assert (Hlab : labels g
                 = "date"%string :: numeric_cols dated ++ existing_meta dated).
  { unfold labels, g. cbn [columns map fst]. f_equal. rewrite map_map. simpl.
    change (map (fun x => fst x) (agg_map dated)) with (map fst (agg_map dated)).
    apply agg_map_labels. }
  unfold select. rewrite find_all_false.
  - eexists. split; [reflexivity |]. cbn [rows]. unfold g. cbn [rows].
    now rewrite !length_map.
  - intros c Hc'. apply negb_false_iff. unfold has_column. apply mem_In.
    rewrite Hlab.
    cbn [app] in Hc'. destruct Hc' as [<- | Hc']; [now left |]. right.
    apply in_app_iff in Hc'. apply in_app_iff. destruct Hc' as [Hc' | Hc'].
    + now right.
    + apply filter_In in Hc'. left. tauto.
Qed.

Lemma add_date_keeps_labels timeutc f dated :
  add_date timeutc f = Return dated ->
  forall c, In c (labels f) -> In c (labels dated).
Proof.
  intros H c Hc. apply add_date_assign, assign_Return in H.
  destruct H as [Hcols _].
  unfold labels. rewrite Hcols. now apply set_dtype_keeps_label.
Qed.

Lemma convert_endDateTime_has parse f f' :
  convert_endDateTime parse f = Return f' ->
  has_column "endDateTime" f' = true.
Proof.
  intros H. pose proof (convert_endDateTime_Return _ _ _ H) as [Hl _].
  unfold convert_endDateTime in H.
  destruct (has_column "endDateTime" f) eqn:Hc; [| discriminate].
  unfold has_column in *. now rewrite Hl.
Qed.

Lemma summarize_waq_after_date parse timeutc th tm f waq waq' dated :
  subset_s2 f = Return waq ->
  convert_endDateTime parse waq = Return waq' ->
  add_date timeutc (filter_window th tm waq') = Return dated ->
  exists daily,
    summarize_waq parse timeutc th tm f = Return daily
    /\ length (rows daily) = length (group_keys (rows dated)).
Proof.
  intros H1 H2 H3.
  destruct (daily_averages_succeeds dated) as (daily & Hd & Hlen).
  - now apply (add_date_columns _ _ _ H3).
  - intros Hnil.
    assert (Hin : In "horizontalPosition"%string (existing_meta dated)).
    { apply existing_meta_In. split; [right; right; now left |].
      apply (add_date_keeps_labels _ _ _ H3).
      rewrite (add_date_filter_window _ _ _ _ _ H3).
      cbn [where_ labels columns].
      apply convert_endDateTime_Return in H2. destruct H2 as [Hl _].
      change (In "horizontalPosition"%string (labels waq')). rewrite Hl.
      apply subset_s2_Return in H1. destruct H1 as (Hc & Hin & _).
      unfold labels. now rewrite Hc. }
    rewrite Hnil in Hin. destruct Hin.
  - exists daily. split; [| exact Hlen].
    unfold summarize_waq. rewrite H1. cbn [rbind]. rewrite H2. cbn [rbind].
    rewrite H3. cbn [rbind]. exact Hd.
Qed.

(** X19. Once the position subset, the timestamp conversion and the date
    step have succeeded, the grouping, the aggregation and the column
    selection of lines 123-134 cannot raise: the position column is always
    there to aggregate and every selected column exists. The daily table has
    one row per distinct date. *)
Theorem X19_aggregation_cannot_raise_after_date_step
    parse timeutc target_hour target_minute f waq waq' dated :
  subset_s2 f = Return waq ->
  convert_endDateTime parse waq = Return waq' ->
  add_date timeutc (filter_window target_hour target_minute waq') = Return dated ->
  exists daily,
    summarize_waq parse timeutc target_hour target_minute f = Return daily
    /\ length (rows daily) = length (group_keys (rows dated)).
Proof. apply summarize_waq_after_date. Qed.

Lemma X19_aggregation_cannot_raise_witness :
  exists daily,
    summarize_waq (fun _ => None) "16:00" 16 0 Examples.waq_one = Return daily
    /\ length (rows daily)
       = length (group_keys (rows (Examples.dated Examples.waq_one))).
Proof.
  apply (X19_aggregation_cannot_raise_after_date_step (fun _ => None) "16:00" 16 0
           Examples.waq_one Examples.waq_one Examples.waq_one);
    vm_compute; reflexivity.
Defined.

(** X20. When readings of the four positions exist but none falls in the
    window, the Summarizer does not fail, whatever the target text: the
    daily table has its columns and no row. *)
Theorem X20_empty_window_gives_an_empty_daily_table
    parse timeutc target_hour target_minute f waq waq' :
  subset_s2 f = Return waq ->
  convert_endDateTime parse waq = Return waq' ->
  rows waq' <> [] ->
  rows (filter_window target_hour target_minute waq') = [] ->
  exists daily,
    summarize_waq parse timeutc target_hour target_minute f = Return daily
    /\ rows daily = []
    /\ hd_error (labels daily) = Some "date"%string.
Proof.
  intros H1 H2 Hne Hnil.
  assert (Hfw : filter_window target_hour target_minute waq'
                = where_ (in_window target_hour target_minute) waq').
  { unfold filter_window. destruct (rows waq'); [now elim Hne | reflexivity]. }
  assert (H3 : add_date timeutc (filter_window target_hour target_minute waq')
               = Return {| columns := set_dtype "date" Datetime (columns waq');
                           rows := [] |}).
  { unfold add_date, assign. rewrite Hnil, Hfw.
    change (has_column "endDateTime" (where_ _ waq'))
      with (has_column "endDateTime" waq').
    now rewrite (convert_endDateTime_has _ _ _ H2). }
  destruct (summarize_waq_after_date parse timeutc target_hour target_minute
              f waq waq' _ H1 H2 H3) as (daily & Hs & Hlen).
  exists daily. split; [exact Hs |]. split.
  - cbn [rows group_keys fold_right length] in Hlen. now destruct (rows daily).
  - apply summarize_waq_row_origin in Hs. destruct Hs as (dated & Hd & _).
    apply daily_averages_Return in Hd. destruct Hd as [Hl _]. now rewrite Hl.
Qed.

Lemma X20_empty_window_witness :
  exists daily,
    summarize_waq (fun _ => None) "16:00" 16 0 Examples.waq_midnight = Return daily
    /\ rows daily = []
    /\ hd_error (labels daily) = Some "date"%string.
Proof.
  apply (X20_empty_window_gives_an_empty_daily_table (fun _ => None) "16:00" 16 0
           Examples.waq_midnight Examples.waq_midnight Examples.waq_midnight);
    try (vm_compute; reflexivity).
  intros H. apply (f_equal (@List.length _)) in H. vm_compute in H.
  discriminate H.
Defined.

(** X21. When the table holds no reading of the four positions, the mask
    of line 110 is not boolean, the subscript of line 114 drops every
    column, and line 118 raises the key error of [endDateTime] (line 94
    raises the same when the column was never there): the Summarizer fails
    instead of writing an empty daily table. *)
Theorem X21_no_reading_of_the_positions_raises_key_error
    parse timeutc target_hour target_minute f waq :
  subset_s2 f = Return waq ->
  rows waq = [] ->
  summarize_waq parse timeutc target_hour target_minute f
  = Raise (KeyError "endDateTime").
Proof.
  intros H1 Hnil. unfold summarize_waq. rewrite H1. cbn [rbind].
  unfold convert_endDateTime.
  destruct (has_column "endDateTime" waq); [| reflexivity].
  unfold assign. rewrite Hnil. cbn [rmap rbind].
  unfold filter_window. cbn [rows]. reflexivity.
Qed.

Lemma X21_no_reading_of_the_positions_witness :
  summarize_waq (fun _ => None) "16:00" 16 0
    {| columns := Examples.waq_columns;
       rows := [Examples.reading (Examples.on 9 16 0 0) "999" (Num 7) NA] |}
  = Raise (KeyError "endDateTime").
Proof.
  apply (X21_no_reading_of_the_positions_raises_key_error (fun _ => None)
           "16:00" 16 0 _
           {| columns := Examples.waq_columns; rows := [] |});
    vm_compute; reflexivity.
Defined.

